(** * MobileSpectro backend ([src/backend/main_v2.py]): session state machine,
    frame store, record store and history view.

    The handlers of the FastAPI application are embedded as functions in a
    small state-and-exception monad.  A Python exception does not roll the
    state back, so a computation returns its outcome together with the state
    it leaves behind, whether it returned or raised.  [with app_lock:] is
    transparent in this sequential model: each handler runs to completion.
    Clock readings, the image decoder and the JSON codec are inputs. *)

From Stdlib Require Import ZArith Ascii String List Lia DecimalString DecimalNat.
From stdpp Require Import base option list strings gmap.
Import ListNotations.

(** ** Python values *)

(** The objects the handlers pass around: request bodies ([Dict[str, Any]]
    parsed from JSON), the session dictionary, history entries and response
    dictionaries.  A dictionary keeps its insertion order; a float is kept as
    its binary64 bit pattern. *)
#[warnings="-register-all"]
Inductive pyval : Type :=
| PyNone
| PyBool (b : bool)
| PyInt (n : Z)
| PyFloat (bits : Z)
| PyStr (s : string)
| PyBytes (b : list Byte.byte)
| PyList (items : list pyval)
| PyDict (entries : list (string * pyval)).

(** [bool(v)]: the truth value Python's [if v:] tests. *)
Definition truthy (v : pyval) : bool :=
  match v with
  | PyNone => false
  | PyBool b => b
  | PyInt n => negb (n =? 0)%Z
  | PyFloat bits => negb (Z.land bits (Z.ones 63) =? 0)%Z
  | PyStr s => negb (String.eqb s "")
  | PyBytes b => match b with [] => false | _ => true end
  | PyList items => match items with [] => false | _ => true end
  | PyDict entries => match entries with [] => false | _ => true end
  end.

(** Lookup in a dictionary's entries; the keys of a dictionary are distinct. *)
Fixpoint assoc_get (k : string) (entries : list (string * pyval)) : option pyval :=
  match entries with
  | [] => None
  | (k', v) :: rest => if String.eqb k k' then Some v else assoc_get k rest
  end.

(** ** Exceptions *)

(** The exceptions the handlers can meet.  [detail] of an [HTTPException] is
    either a literal or [str(e)] of a caught exception; the text of [str(e)]
    is left symbolic.  [AttributeError] names the attribute that was looked up
    on an object without it. *)
Inductive Exception : Type :=
| HTTPException (status_code : Z) (detail : Detail)
| AttributeError (attr : string)
| JSONDecodeError
| cv2_error
with Detail : Type :=
| Lit (s : string)
| StrOf (e : Exception).

(** ** The handler monad *)

Definition M (S A : Type) : Type := S -> (Exception + A) * S.

Definition ret {S A} (a : A) : M S A := fun s => (inr a, s).

Definition bind {S A B} (m : M S A) (k : A -> M S B) : M S B :=
  fun s =>
    match m s with
    | (inr a, s') => k a s'
    | (inl e, s') => (inl e, s')
    end.

Definition raise {S A} (e : Exception) : M S A := fun s => (inl e, s).

(** [try: body except Exception as e: handler(e)] *)
Definition try_except {S A} (body : M S A) (handler : Exception -> M S A) : M S A :=
  fun s =>
    match body s with
    | (inr a, s') => (inr a, s')
    | (inl e, s') => handler e s'
    end.

Definition get {S} : M S S := fun s => (inr s, s).
Definition modify {S} (f : S -> S) : M S unit := fun s => (inr tt, f s).

(** Run a computation on one component of a larger state. *)
Definition on_fst {S T A} (m : M S A) : M (S * T) A :=
  fun st => let '(r, s') := m (fst st) in (r, (s', snd st)).
Definition on_snd {S T A} (m : M T A) : M (S * T) A :=
  fun st => let '(r, t') := m (snd st) in (r, (fst st, t')).

#[export] Instance M_ret {S} : MRet (M S) := @ret S.
#[export] Instance M_bind {S} : MBind (M S) := fun A B k m => bind m k.
#[export] Instance M_throw {S} : MThrow Exception (M S) := @raise S.

(** [d.get(k)] and [d.get(k, default)]: defined on dictionaries only; on any
    other object the attribute lookup raises. *)
Definition py_get {S} (d : pyval) (k : string) (dflt : pyval) : M S pyval :=
  match d with
  | PyDict entries => mret (default dflt (assoc_get k entries))
  | _ => mthrow (AttributeError "get")
  end.

(** ** Clock readings *)

(** What [datetime.now()] returns. *)
Record datetime : Type := {
  year : nat; month : nat; day : nat;
  hour : nat; minute : nat; second : nat; microsecond : nat
}.

Definition digits (n : nat) : string := NilEmpty.string_of_uint (Nat.to_uint n).

Fixpoint zeros (n : nat) : string :=
  match n with
  | O => ""
  | S n' => "0" +:+ zeros n'
  end.

(** Decimal rendering padded with zeros on the left up to [width]. *)
Definition zfill (width n : nat) : string :=
  let d := digits n in zeros (width - String.length d) +:+ d.

(** [dt.strftime('%Y%m%d_%H%M%S')], for years of four digits. *)
Definition strftime_stamp (dt : datetime) : string :=
  zfill 4 (year dt) +:+ zfill 2 (month dt) +:+ zfill 2 (day dt) +:+ "_" +:+
  zfill 2 (hour dt) +:+ zfill 2 (minute dt) +:+ zfill 2 (second dt).

(** [dt.isoformat()]: the fraction is printed only when it is not zero. *)
Definition isoformat (dt : datetime) : string :=
  zfill 4 (year dt) +:+ "-" +:+ zfill 2 (month dt) +:+ "-" +:+ zfill 2 (day dt) +:+ "T" +:+
  zfill 2 (hour dt) +:+ ":" +:+ zfill 2 (minute dt) +:+ ":" +:+ zfill 2 (second dt) +:+
  (if Nat.eqb (microsecond dt) 0 then "" else "." +:+ zfill 6 (microsecond dt)).

(** ** Application state *)

(** [class AppState]; [app_state] holds the state name as the string the code
    stores, [current_scan_data] is [None] or the session dictionary. *)
Record AppState : Type := {
  app_state : string;
  ui_state_text : string;
  latest_frame_jpeg : option (list Byte.byte);
  scan_history : list pyval;
  current_scan_data : pyval
}.

(** [AppState.__init__] *)
Definition init_state : AppState := {|
  app_state := "IDLE";
  ui_state_text := "State: IDLE";
  latest_frame_jpeg := None;
  scan_history := [];
  current_scan_data := PyNone
|}.

Definition set_app_state (v : string) (st : AppState) : AppState :=
  {| app_state := v; ui_state_text := ui_state_text st;
     latest_frame_jpeg := latest_frame_jpeg st; scan_history := scan_history st;
     current_scan_data := current_scan_data st |}.
Definition set_ui_state_text (v : string) (st : AppState) : AppState :=
  {| app_state := app_state st; ui_state_text := v;
     latest_frame_jpeg := latest_frame_jpeg st; scan_history := scan_history st;
     current_scan_data := current_scan_data st |}.
Definition set_latest_frame_jpeg (v : option (list Byte.byte)) (st : AppState) : AppState :=
  {| app_state := app_state st; ui_state_text := ui_state_text st;
     latest_frame_jpeg := v; scan_history := scan_history st;
     current_scan_data := current_scan_data st |}.
Definition set_current_scan_data (v : pyval) (st : AppState) : AppState :=
  {| app_state := app_state st; ui_state_text := ui_state_text st;
     latest_frame_jpeg := latest_frame_jpeg st; scan_history := scan_history st;
     current_scan_data := v |}.
(** [state.scan_history.append(v)] *)
Definition history_append (v : pyval) (st : AppState) : AppState :=
  {| app_state := app_state st; ui_state_text := ui_state_text st;
     latest_frame_jpeg := latest_frame_jpeg st; scan_history := scan_history st ++ [v];
     current_scan_data := current_scan_data st |}.

(** The per-request [BackgroundTasks] object: the arguments of the queued
    [_save_scan_record] calls, in the order [add_task] received them. *)
Definition BackgroundTasks : Type := list pyval.

Definition add_task (scan_data : pyval) : M BackgroundTasks unit :=
  modify (fun q => q ++ [scan_data]).

(** ** Action endpoint *)

(** The session dictionary [start-scan] creates. *)
Definition new_session (now : datetime) : pyval :=
  PyDict [("timestamp", PyStr (isoformat now));
          ("frames", PyList []);
          ("analysis", PyNone)].

Definition status_response (s : string) : pyval := PyDict [("status", PyStr s)].

(** [handle_action(action, background_tasks)]; [now] is the clock reading
    [start-scan] takes. *)
Definition handle_action (action : string) (now : datetime)
  : M (AppState * BackgroundTasks) pyval :=
  if String.eqb action "start-scan" then
    on_fst (modify (set_app_state "BLANKING_COUNTDOWN"));;
    on_fst (modify (set_ui_state_text "State: BLANKING_COUNTDOWN"));;
    on_fst (modify (set_current_scan_data (new_session now)));;
    mret (status_response "scan_started")
  else if String.eqb action "stop-scan" then
    st ← on_fst get;
    (if truthy (current_scan_data st) then
       on_snd (add_task (current_scan_data st));;
       on_fst (modify (history_append (current_scan_data st)))
     else mret tt);;
    on_fst (modify (set_app_state "IDLE"));;
    on_fst (modify (set_ui_state_text "State: IDLE"));;
    on_fst (modify (set_current_scan_data PyNone));;
    mret (status_response "scan_stopped")
  else if String.eqb action "proceed-to-scan" then
    on_fst (modify (set_app_state "SCANNING"));;
    on_fst (modify (set_ui_state_text "State: SCANNING"));;
    mret (status_response "proceeding_to_scan")
  else
    mthrow (HTTPException 400 (Lit ("Unknown action: " +:+ action))).

(** ** Status, frame and history endpoints *)

(** [get_status()] *)
Definition get_status : M AppState pyval :=
  st ← get;
  mret (PyDict [("app_state", PyStr (app_state st));
                ("ui_state_text", PyStr (ui_state_text st));
                ("active_profile_name", PyStr "Mobile Spectrometry");
                ("latest_frame_jpeg", PyNone)]).

(** [not state.latest_frame_jpeg]: [None] and the empty buffer are both false. *)
Definition frame_missing (f : option (list Byte.byte)) : bool :=
  match f with
  | None => true
  | Some b => negb (truthy (PyBytes b))
  end.

(** [get_latest_frame()] *)
Definition get_latest_frame : M AppState pyval :=
  st ← get;
  if frame_missing (latest_frame_jpeg st) then
    mthrow (HTTPException 404 (Lit "No frame available"))
  else
    mret (PyDict [("data", PyBytes (default [] (latest_frame_jpeg st)))]).

(** [l[start:]] for a possibly negative [start], as Python clamps it. *)
Definition py_slice_from {A} (start : Z) (l : list A) : list A :=
  let n := Z.of_nat (length l) in
  let i := if (start <? 0)%Z then Z.max (n + start) 0 else Z.min start n in
  drop (Z.to_nat i) l.

(** [get_scan_history()] *)
Definition get_scan_history : M AppState pyval :=
  st ← get;
  mret (PyDict [("count", PyInt (Z.of_nat (length (scan_history st))));
                ("scans", PyList (py_slice_from (-20) (scan_history st)))]).

(** [health_check()] *)
Definition health_check : M AppState pyval :=
  st ← get;
  mret (PyDict [("status", PyStr "ok");
                ("version", PyStr "2.0");
                ("mode", PyStr "phone-first (calculations on device)");
                ("scan_count", PyInt (Z.of_nat (length (scan_history st))))]).

Definition RECORDS_DIR : string := "records".

(** [f"{RECORDS_DIR}/scan_{now.strftime('%Y%m%d_%H%M%S')}.json"], the name
    both writers give a record file. *)
Definition record_filename (now : datetime) : string :=
  RECORDS_DIR +:+ "/scan_" +:+ strftime_stamp now +:+ ".json".

(** The identifier [get_scan_record] expects for the record written at
    [now]: the file name without the directory and the extension. *)
Definition record_id (now : datetime) : string := "scan_" +:+ strftime_stamp now.

(** The requests the service accepts, with the clock readings their handlers
    take; [RunBackgroundTask] is the framework running the oldest queued
    background task. *)
Inductive Request : Type :=
| GetStatus
| GetLatestFrame
| PostFrame (contents : list Byte.byte)
| PostAction (action : string) (now : datetime)
| PostSaveResult (result_data : pyval) (now1 now2 : datetime)
| GetHistory
| GetRecord (scan_id : string)
| GetHealth
| RunBackgroundTask (now : datetime).

Section Collaborators.

(** The image codec: [cv2.imdecode(np.frombuffer(contents, np.uint8), ...)]
    returns an array, returns [None], or raises. *)
Context {ndarray : Type}.
Variable imdecode : list Byte.byte -> Exception + option ndarray.

(** The JSON codec over the text a record file holds: [json.dump] of a value
    and [json.load], which fails with [JSONDecodeError] on text that does
    not parse. *)
Context {text : Type}.
Variable json_dumps : pyval -> text.
Variable json_loads : text -> option pyval.

(** [with open(path, 'w') as f: f.write(contents)]; the records directory is
    a finite map from file path to file contents. *)
Definition write_file (path : string) (contents : text) : M (gmap string text) unit :=
  modify (fun fs => <[path := contents]> fs).

(** [receive_frame(file)]; [contents] is what [await file.read()] returned. *)
Definition receive_frame (contents : list Byte.byte) : M AppState pyval :=
  try_except
    (modify (set_latest_frame_jpeg (Some contents));;
     frame_bgr ← match imdecode contents with
                 | inl e => mthrow e
                 | inr f => mret f
                 end;
     match frame_bgr with
     | None => mthrow (HTTPException 400 (Lit "Invalid JPEG"))
     | Some _ => mret tt
     end;;
     mret (PyDict [("status", PyStr "ok");
                   ("frame_size", PyInt (Z.of_nat (length contents)))]))
    (fun e => mthrow (HTTPException 500 (StrOf e))).

(** [save_result(result_data)]; [now1] and [now2] are the two clock readings
    the handler takes, for the file name and for the history entry. *)
Definition save_result (result_data : pyval) (now1 now2 : datetime)
  : M (AppState * gmap string text) pyval :=
  try_except
    (let filename := record_filename now1 in
     on_snd (write_file filename (json_dumps result_data));;
     a1 ← py_get result_data "analysis" (PyDict []);
     v0 ← py_get a1 "v0" PyNone;
     a2 ← py_get result_data "analysis" (PyDict []);
     r2 ← py_get a2 "r_squared" PyNone;
     on_fst (modify (history_append
               (PyDict [("timestamp", PyStr (isoformat now2));
                        ("filename", PyStr filename);
                        ("v0", v0);
                        ("r_squared", r2)])));;
     mret (PyDict [("status", PyStr "saved"); ("filename", PyStr filename)]))
    (fun e => mthrow (HTTPException 500 (StrOf e))).

(** [get_scan_record(scan_id)] *)
Definition get_scan_record (scan_id : string) : M (gmap string text) pyval :=
  try_except
    (let filepath := RECORDS_DIR +:+ "/" +:+ scan_id +:+ ".json" in
     fs ← get;
     match fs !! filepath with
     | None => mthrow (HTTPException 404 (Lit "Scan not found"))
     | Some contents =>
         match json_loads contents with
         | Some data => mret data
         | None => mthrow JSONDecodeError
         end
     end)
    (fun e => mthrow (HTTPException 500 (StrOf e))).

(** [_save_scan_record(scan_data)], the background task; it reports a
    failure on the console only. *)
Definition _save_scan_record (scan_data : pyval) (now : datetime)
  : M (gmap string text) unit :=
  try_except
    (write_file (record_filename now) (json_dumps scan_data))
    (fun _ => mret tt).

(** *** The whole service *)

(** The process state, the records directory and the background tasks that
    were queued and have not run yet. *)
Record World : Type := {
  app : AppState;
  files : gmap string text;
  pending : BackgroundTasks
}.

Definition init_world : World :=
  {| app := init_state; files := ∅; pending := [] |}.

Definition with_app (w : World) (out : (Exception + pyval) * AppState)
  : (Exception + pyval) * World :=
  (fst out, {| app := snd out; files := files w; pending := pending w |}).

Definition serve (req : Request) (w : World) : (Exception + pyval) * World :=
  match req with
  | GetStatus => with_app w (get_status (app w))
  | GetLatestFrame => with_app w (get_latest_frame (app w))
  | PostFrame contents => with_app w (receive_frame contents (app w))
  | PostAction action now =>
      let out := handle_action action now (app w, []) in
      (fst out, {| app := fst (snd out); files := files w;
                   pending := pending w ++ snd (snd out) |})
  | PostSaveResult result_data now1 now2 =>
      let out := save_result result_data now1 now2 (app w, files w) in
      (fst out, {| app := fst (snd out); files := snd (snd out);
                   pending := pending w |})
  | GetHistory => with_app w (get_scan_history (app w))
  | GetRecord scan_id =>
      let out := get_scan_record scan_id (files w) in
      (fst out, {| app := app w; files := snd out; pending := pending w |})
  | GetHealth => with_app w (health_check (app w))
  | RunBackgroundTask now =>
      match pending w with
      | [] => (inr PyNone, w)
      | scan_data :: rest =>
          let out := _save_scan_record scan_data now (files w) in
          (inr PyNone, {| app := app w; files := snd out; pending := rest |})
      end
  end.

Definition run_server (reqs : list Request) (w : World) : World :=
  fold_left (fun w req => snd (serve req w)) reqs w.

End Collaborators.

(** ** Runs of the action endpoint *)

(** One call of the action endpoint: the response is dropped, the state and
    the queued background tasks are kept. *)
Definition action_step (s : AppState * BackgroundTasks) (a : string * datetime)
  : AppState * BackgroundTasks :=
  snd (handle_action (fst a) (snd a) s).

Definition run_actions (acts : list (string * datetime)) (s : AppState * BackgroundTasks)
  : AppState * BackgroundTasks :=
  fold_left action_step acts s.

(** A session object is held: [current_scan_data is not None]. *)
Definition has_session (st : AppState) : bool :=
  match current_scan_data st with
  | PyNone => false
  | _ => true
  end.

(** ** The transition table as the specification words it *)

(** Section 4.1 of the specification, as the claim reads it: [start-scan] is
    listed from [IDLE] only, [proceed-to-scan] from [BLANKING_COUNTDOWN] only,
    [stop-scan] from every state; [None] is a pair the table does not list.
    This definition follows the specification, not the code. *)
Definition spec_transition (current action : string) : option string :=
  if String.eqb action "start-scan" then
    if String.eqb current "IDLE" then Some "BLANKING_COUNTDOWN" else None
  else if String.eqb action "proceed-to-scan" then
    if String.eqb current "BLANKING_COUNTDOWN" then Some "SCANNING" else None
  else if String.eqb action "stop-scan" then Some "IDLE"
  else None.

Definition succeeded {A} (r : Exception + A) : Prop :=
  match r with inr _ => True | inl _ => False end.
Definition failed {A} (r : Exception + A) : Prop :=
  match r with inr _ => False | inl _ => True end.

(** The table read as a contract on one call: a listed pair succeeds and
    reaches the listed state, an unlisted pair fails and changes nothing. *)
Definition conforms_to_table (st : AppState) (q : BackgroundTasks)
    (action : string) (now : datetime) : Prop :=
  let out := handle_action action now (st, q) in
  match spec_transition (app_state st) action with
  | Some next => succeeded (fst out) /\ app_state (fst (snd out)) = next
  | None => failed (fst out) /\ fst (snd out) = st
  end.

(** What every state reached through the action endpoint satisfies: [IDLE]
    holds no session, [BLANKING_COUNTDOWN] holds a freshly created one,
    [SCANNING] holds one or none. *)
Inductive session_inv (st : AppState) : Prop :=
| inv_idle :
    app_state st = "IDLE" -> current_scan_data st = PyNone -> session_inv st
| inv_blanking now :
    app_state st = "BLANKING_COUNTDOWN" -> current_scan_data st = new_session now ->
    session_inv st
| inv_scanning_live now :
    app_state st = "SCANNING" -> current_scan_data st = new_session now ->
    session_inv st
| inv_scanning_empty :
    app_state st = "SCANNING" -> current_scan_data st = PyNone -> session_inv st.

Definition t0 : datetime :=
  {| year := 2024; month := 3; day := 9; hour := 14; minute := 5; second := 7;
     microsecond := 0 |}.

(** ** Sample collaborators *)

(** A decoder that accepts buffers starting with the JPEG marker [FF D8],
    raises on the empty buffer and returns [None] otherwise. *)
Definition sample_imdecode (contents : list Byte.byte) : Exception + option unit :=
  match contents with
  | [] => inl cv2_error
  | Byte.xff :: Byte.xd8 :: _ => inr (Some tt)
  | _ => inr None
  end.

(** A codec over files that hold either a document or text that does not
    parse ([None]). *)
Definition sample_dumps (v : pyval) : option pyval := Some v.
Definition sample_loads (contents : option pyval) : option pyval := contents.

(** A client result: [{"analysis": {"v0": 0.5, "r_squared": 1.0}}]. *)
Definition sample_result : pyval :=
  PyDict [("analysis", PyDict [("v0", PyFloat 0x3FE0000000000000);
                               ("r_squared", PyFloat 0x3FF0000000000000)])].

(** ** Clock readings the service can see *)

(** The ranges of the fields of a [datetime], for the years [strftime]
    prints with four digits. *)
Definition valid_datetime (dt : datetime) : Prop :=
  (1000 <= Z.of_nat (year dt) <= 9999)%Z /\ 1 <= month dt <= 12 /\ 1 <= day dt <= 31 /\
  hour dt < 24 /\ minute dt < 60 /\ second dt < 60 /\
  (Z.of_nat (microsecond dt) < 1000000)%Z.

(** Two clock readings within the same second. *)
Definition same_second (a b : datetime) : Prop :=
  year a = year b /\ month a = month b /\ day a = day b /\
  hour a = hour b /\ minute a = minute b /\ second a = second b.

(** Reading a string of decimal digits, leading zeros allowed. *)
Definition read_decimal (s : string) : option nat :=
  option_map Nat.of_uint (NilEmpty.uint_of_string s).

(** [t0] a quarter of a millisecond later, and a body whose [analysis]
    member is [null]. *)
Definition t0_later : datetime :=
  {| year := 2024; month := 3; day := 9; hour := 14; minute := 5; second := 7;
     microsecond := 250 |}.
Definition sample_null_analysis : pyval := PyDict [("analysis", PyNone)].

(** The requests served by the [GET] endpoints. *)
Definition read_only_request (req : Request) : bool :=
  match req with
  | GetStatus | GetLatestFrame | GetHistory | GetRecord _ | GetHealth => true
  | _ => false
  end.

(** The requests served by the action endpoint. *)
Definition action_request (req : Request) : bool :=
  match req with
  | PostAction _ _ => true
  | _ => false
  end.

(** The clock reading under which a request writes a record file, if it
    writes one: a save, or a background task that finds a queued snapshot. *)
Definition writes_at (req : Request) : option datetime :=
  match req with
  | PostSaveResult _ now1 _ => Some now1
  | RunBackgroundTask now => Some now
  | _ => None
  end.

(** One second after [t0]. *)
Definition t1 : datetime :=
  {| year := 2024; month := 3; day := 9; hour := 14; minute := 5; second := 8;
     microsecond := 0 |}.

(** The two kinds of history entry the handlers build: the session
    dictionary of [start-scan], and the summary of a client save. *)
Inductive history_entry : pyval -> Prop :=
| entry_session (t : datetime) : history_entry (new_session t)
| entry_summary (timestamp filename : string) (v0 r2 : pyval) :
    history_entry (PyDict [("timestamp", PyStr timestamp);
                           ("filename", PyStr filename);
                           ("v0", v0);
                           ("r_squared", r2)]).

(** The invariant of the whole service on sessions, history and queue. *)
Definition contents_inv {text : Type} (w : World (text:=text)) : Prop :=
  session_inv (app w) /\
  Forall history_entry (scan_history (app w)) /\
  Forall (fun v => exists t, v = new_session t) (pending w).

(** * Proofs *)

Ltac run_handler :=
  cbv [mbind mret mthrow M_bind M_ret M_throw bind ret raise try_except get modify
       on_fst on_snd add_task fst snd].

Lemma handle_action_start st q now :
  handle_action "start-scan" now (st, q) =
    (inr (status_response "scan_started"),
     (set_current_scan_data (new_session now)
        (set_ui_state_text "State: BLANKING_COUNTDOWN"
           (set_app_state "BLANKING_COUNTDOWN" st)), q)).
Proof. reflexivity. Qed.

Lemma handle_action_proceed st q now :
  handle_action "proceed-to-scan" now (st, q) =
    (inr (status_response "proceeding_to_scan"),
     (set_ui_state_text "State: SCANNING" (set_app_state "SCANNING" st), q)).
Proof. reflexivity. Qed.

Lemma handle_action_stop st q now :
  handle_action "stop-scan" now (st, q) =
    (inr (status_response "scan_stopped"),
     if truthy (current_scan_data st) then
       (set_current_scan_data PyNone
          (set_ui_state_text "State: IDLE"
             (set_app_state "IDLE" (history_append (current_scan_data st) st))),
        q ++ [current_scan_data st])
     else
       (set_current_scan_data PyNone
          (set_ui_state_text "State: IDLE" (set_app_state "IDLE" st)), q)).
Proof.
  unfold handle_action.
  change (String.eqb "stop-scan" "start-scan") with false.
  change (String.eqb "stop-scan" "stop-scan") with true.
  run_handler. destruct (truthy (current_scan_data st)); reflexivity.
Qed.

Lemma handle_action_unknown st q now action :
  action <> "start-scan" -> action <> "stop-scan" -> action <> "proceed-to-scan" ->
  handle_action action now (st, q) =
    (inl (HTTPException 400 (Lit ("Unknown action: " +:+ action))), (st, q)).
Proof.
  intros H1 H2 H3. unfold handle_action.
  apply String.eqb_neq in H1, H2, H3. rewrite H1, H2, H3. reflexivity.
Qed.

(** ** The action endpoint against the transition table *)

Lemma spec_transition_listed current action next :
  spec_transition current action = Some next ->
  (action = "start-scan" /\ next = "BLANKING_COUNTDOWN") \/
  (action = "proceed-to-scan" /\ next = "SCANNING") \/
  (action = "stop-scan" /\ next = "IDLE").
Proof.
  unfold spec_transition.
  destruct (String.eqb action "start-scan") eqn:E1.
  { apply String.eqb_eq in E1. destruct (String.eqb current "IDLE"); [|discriminate].
    intros [= <-]. auto. }
  destruct (String.eqb action "proceed-to-scan") eqn:E2.
  { apply String.eqb_eq in E2.
    destruct (String.eqb current "BLANKING_COUNTDOWN"); [|discriminate].
    intros [= <-]. auto. }
  destruct (String.eqb action "stop-scan") eqn:E3; [|discriminate].
  apply String.eqb_eq in E3. intros [= <-]. auto.
Qed.

(** C1, counterexample: in the initial state ([IDLE]) the table does not list
    [proceed-to-scan], so the claim has the call rejected with the state
    unchanged; the code accepts it and moves to [SCANNING]. *)
Lemma proceed_from_idle_breaks_table :
  spec_transition (app_state init_state) "proceed-to-scan" = None /\
  handle_action "proceed-to-scan" t0 (init_state, []) =
    (inr (status_response "proceeding_to_scan"),
     (set_ui_state_text "State: SCANNING" (set_app_state "SCANNING" init_state), [])) /\
  ~ conforms_to_table init_state [] "proceed-to-scan" t0.
Proof.
  split; [reflexivity|]. split; [reflexivity|].
  unfold conforms_to_table. vm_compute. intros [H _]. exact H.
Qed.

(** C1, as amended: the outcome of [handle_action] is decided by the action
    name alone.  On every pair the table lists the call succeeds and reaches
    the listed state; [start-scan] and [proceed-to-scan] are accepted from
    every other state too, with the same target state and effect; only a name
    outside the three recognised ones is rejected, with status 400 and
    nothing changed. *)
Theorem handle_action_decided_by_name (st : AppState) (q : BackgroundTasks)
    (action : string) (now : datetime) :
  exists r st' q',
    handle_action action now (st, q) = (r, (st', q')) /\
    match spec_transition (app_state st) action with
    | Some next => succeeded r /\ app_state st' = next
    | None => True
    end /\
    ((action = "start-scan" /\ r = inr (status_response "scan_started") /\
      app_state st' = "BLANKING_COUNTDOWN" /\
      current_scan_data st' = new_session now /\
      scan_history st' = scan_history st /\ q' = q) \/
     (action = "proceed-to-scan" /\ r = inr (status_response "proceeding_to_scan") /\
      app_state st' = "SCANNING" /\
      current_scan_data st' = current_scan_data st /\
      scan_history st' = scan_history st /\ q' = q) \/
     (action = "stop-scan" /\ r = inr (status_response "scan_stopped") /\
      app_state st' = "IDLE" /\
      current_scan_data st' = PyNone /\
      if truthy (current_scan_data st)
      then scan_history st' = scan_history st ++ [current_scan_data st] /\
           q' = q ++ [current_scan_data st]
      else scan_history st' = scan_history st /\ q' = q) \/
     (action <> "start-scan" /\ action <> "stop-scan" /\ action <> "proceed-to-scan" /\
      r = inl (HTTPException 400 (Lit ("Unknown action: " +:+ action))) /\
      st' = st /\ q' = q)).
Proof.
  destruct (String.eqb_spec action "start-scan") as [->|N1].
  { do 3 eexists. split; [apply handle_action_start|]. split.
    - destruct (spec_transition _ _) eqn:E; [|exact I].
      apply spec_transition_listed in E as [[_ ->]|[[? _]|[? _]]]; try discriminate.
      split; [exact I|reflexivity].
    - left. repeat split; reflexivity. }
  destruct (String.eqb_spec action "proceed-to-scan") as [->|N2].
  { do 3 eexists. split; [apply handle_action_proceed|]. split.
    - destruct (spec_transition _ _) eqn:E; [|exact I].
      apply spec_transition_listed in E as [[? _]|[[_ ->]|[? _]]]; try discriminate.
      split; [exact I|reflexivity].
    - right; left. repeat split; reflexivity. }
  destruct (String.eqb_spec action "stop-scan") as [->|N3].
  { rewrite handle_action_stop.
    destruct (truthy (current_scan_data st)) eqn:T;
      (do 3 eexists; split; [reflexivity|]; split;
       [split; [exact I|reflexivity]
       |right; right; left; rewrite ?T; repeat split; reflexivity]). }
  do 3 eexists. split; [apply handle_action_unknown; assumption|]. split.
  - destruct (spec_transition _ _) eqn:E; [|exact I].
    apply spec_transition_listed in E as [[? _]|[[? _]|[? _]]]; contradiction.
  - right; right; right. repeat split; assumption || reflexivity.
Qed.

(** ** Session and state name along runs of the action endpoint *)

Lemma session_inv_init : session_inv init_state.
Proof. apply inv_idle; reflexivity. Qed.

Lemma session_inv_step s a : session_inv (fst s) -> session_inv (fst (action_step s a)).
Proof.
  destruct s as [st q], a as [action now]. unfold action_step. simpl fst at 1; simpl snd.
  intros Hinv.
  destruct (String.eqb_spec action "start-scan") as [->|N1].
  { rewrite handle_action_start. eapply inv_blanking; reflexivity. }
  destruct (String.eqb_spec action "proceed-to-scan") as [->|N2].
  { rewrite handle_action_proceed. simpl.
    destruct Hinv as [_ Hs|now' _ Hs|now' _ Hs|_ Hs].
    - apply inv_scanning_empty; [reflexivity|exact Hs].
    - eapply inv_scanning_live; [reflexivity|exact Hs].
    - eapply inv_scanning_live; [reflexivity|exact Hs].
    - apply inv_scanning_empty; [reflexivity|exact Hs]. }
  destruct (String.eqb_spec action "stop-scan") as [->|N3].
  { rewrite handle_action_stop.
    destruct (truthy (current_scan_data st)); apply inv_idle; reflexivity. }
  rewrite handle_action_unknown by assumption. exact Hinv.
Qed.

Lemma session_inv_run acts s : session_inv (fst s) -> session_inv (fst (run_actions acts s)).
Proof.
  revert s. induction acts as [|a acts IH]; intros s Hinv; [exact Hinv|].
  simpl. apply IH, session_inv_step, Hinv.
Qed.

(** C2, counterexample: one [proceed-to-scan] from the initial state reaches
    [SCANNING] with no session, so "a session exists iff the state is not
    [IDLE]" fails there. *)
Lemma scanning_without_session :
  let st := fst (run_actions [("proceed-to-scan", t0)] (init_state, [])) in
  app_state st = "SCANNING" /\ has_session st = false /\
  ~ (has_session st = true <-> app_state st <> "IDLE").
Proof.
  split; [reflexivity|]. split; [reflexivity|].
  intros [_ H].
  assert (Hs : has_session
                 (fst (run_actions [("proceed-to-scan", t0)] (init_state, []))) = true)
    by (apply H; discriminate).
  discriminate Hs.
Qed.

(** C2, as amended: after every sequence of calls of the action endpoint from
    the initial state, a session is held only if the state is not [IDLE]
    (no reachable [IDLE] state holds a session), every [BLANKING_COUNTDOWN]
    state holds one, and the state name is one of the three.  [SCANNING]
    without a session is reachable, so the converse is not claimed. *)
Theorem session_only_outside_idle (acts : list (string * datetime)) :
  let st := fst (run_actions acts (init_state, [])) in
  (has_session st = true -> app_state st <> "IDLE") /\
  (app_state st = "IDLE" -> has_session st = false) /\
  (app_state st = "BLANKING_COUNTDOWN" -> has_session st = true) /\
  (app_state st = "IDLE" \/ app_state st = "BLANKING_COUNTDOWN" \/ app_state st = "SCANNING").
Proof.
  intros st.
  assert (Hinv : session_inv st) by (apply session_inv_run, session_inv_init).
  unfold has_session.
  destruct Hinv as [Ha Hs|now Ha Hs|now Ha Hs|Ha Hs]; rewrite Ha, Hs;
    repeat split; intros; try discriminate; auto.
Qed.

(** ** Unrecognised actions and [stop-scan] in [IDLE] *)

(** C7: an action name other than [start-scan], [stop-scan] and
    [proceed-to-scan] leaves the whole application state (state name, session,
    history, latest frame) and the task queue as they were, and raises
    [HTTPException] with status 400 whose detail is ["Unknown action: "]
    followed by the offending name. *)
Theorem unknown_action_rejected (st : AppState) (q : BackgroundTasks)
    (action : string) (now : datetime) :
  action <> "start-scan" -> action <> "stop-scan" -> action <> "proceed-to-scan" ->
  exists detail,
    handle_action action now (st, q) = (inl (HTTPException 400 (Lit detail)), (st, q)) /\
    detail = "Unknown action: " +:+ action /\
    app_state (fst (snd (handle_action action now (st, q)))) = app_state st /\
    current_scan_data (fst (snd (handle_action action now (st, q)))) = current_scan_data st /\
    scan_history (fst (snd (handle_action action now (st, q)))) = scan_history st.
Proof.
  intros H1 H2 H3. eexists.
  rewrite !handle_action_unknown by assumption.
  repeat split; reflexivity.
Qed.

(** The theorem at the action name [pause-scan] in the initial state. *)
Lemma unknown_action_rejected_witness :
  exists detail,
    handle_action "pause-scan" t0 (init_state, []) =
      (inl (HTTPException 400 (Lit detail)), (init_state, [])) /\
    detail = "Unknown action: pause-scan" /\
    app_state (fst (snd (handle_action "pause-scan" t0 (init_state, [])))) = "IDLE" /\
    current_scan_data (fst (snd (handle_action "pause-scan" t0 (init_state, [])))) = PyNone /\
    scan_history (fst (snd (handle_action "pause-scan" t0 (init_state, [])))) = [].
Proof.
  apply (unknown_action_rejected init_state [] "pause-scan" t0); discriminate.
Defined.

(** C8: [stop-scan] in state [IDLE], where no session is held, succeeds and
    changes nothing that matters: the state is [IDLE] afterwards, still
    without a session, the history and the latest frame are untouched and no
    persistence task is queued. *)
Theorem stop_scan_in_idle_is_noop (st : AppState) (q : BackgroundTasks) (now : datetime) :
  app_state st = "IDLE" -> current_scan_data st = PyNone ->
  exists st',
    handle_action "stop-scan" now (st, q) =
      (inr (status_response "scan_stopped"), (st', q)) /\
    app_state st' = "IDLE" /\
    current_scan_data st' = PyNone /\
    scan_history st' = scan_history st /\
    length (scan_history st') = length (scan_history st) /\
    latest_frame_jpeg st' = latest_frame_jpeg st.
Proof.
  intros Ha Hs. rewrite handle_action_stop, Hs. simpl truthy. cbv iota.
  eexists. split; [reflexivity|]. repeat split; reflexivity.
Qed.

(** The theorem at the initial state. *)
Lemma stop_scan_in_idle_is_noop_witness :
  exists st',
    handle_action "stop-scan" t0 (init_state, []) =
      (inr (status_response "scan_stopped"), (st', [])) /\
    app_state st' = "IDLE" /\
    current_scan_data st' = PyNone /\
    scan_history st' = scan_history init_state /\
    length (scan_history st') = length (scan_history init_state) /\
    latest_frame_jpeg st' = latest_frame_jpeg init_state.
Proof.
  apply (stop_scan_in_idle_is_noop init_state [] t0); reflexivity.
Defined.

(** The label always spells the state name. *)
Lemma ui_text_step s a :
  ui_state_text (fst s) = "State: " +:+ app_state (fst s) ->
  ui_state_text (fst (action_step s a)) = "State: " +:+ app_state (fst (action_step s a)).
Proof.
  destruct s as [st q], a as [action now]. unfold action_step. simpl fst at 1 2; simpl snd.
  intros Hui.
  destruct (String.eqb_spec action "start-scan") as [->|N1]; [reflexivity|].
  destruct (String.eqb_spec action "proceed-to-scan") as [->|N2]; [reflexivity|].
  destruct (String.eqb_spec action "stop-scan") as [->|N3].
  { rewrite handle_action_stop. destruct (truthy (current_scan_data st)); reflexivity. }
  rewrite handle_action_unknown by assumption. exact Hui.
Qed.

Lemma ui_text_run acts s :
  ui_state_text (fst s) = "State: " +:+ app_state (fst s) ->
  ui_state_text (fst (run_actions acts s)) = "State: " +:+ app_state (fst (run_actions acts s)).
Proof.
  revert s. induction acts as [|a acts IH]; intros s H; [exact H|].
  simpl. apply IH, ui_text_step, H.
Qed.

(** In a state reached through the action endpoint, [IDLE] alone already
    gives the no-op: the session is gone whenever the state is [IDLE], and
    the call leaves the state and the task queue exactly as they were. *)
Lemma stop_scan_in_reachable_idle acts now :
  let s := run_actions acts (init_state, []) in
  app_state (fst s) = "IDLE" ->
  handle_action "stop-scan" now s = (inr (status_response "scan_stopped"), s).
Proof.
  intros s Ha.
  assert (Hinv : session_inv (fst s)) by (apply session_inv_run, session_inv_init).
  assert (Hui : ui_state_text (fst s) = "State: " +:+ app_state (fst s))
    by (apply ui_text_run; reflexivity).
  destruct s as [st q]. simpl in Ha, Hinv, Hui. rewrite handle_action_stop.
  destruct Hinv as [_ Hs|? Hb _|? Hb _|Hb _]; try congruence.
  rewrite Hs. simpl truthy. cbv iota. do 2 f_equal.
  destruct st as [a u f h c]. simpl in *. subst.
  reflexivity.
Qed.

(** ** The history view *)

Lemma py_slice_last_20 {A} (l : list A) :
  py_slice_from (-20) l = drop (length l - 20) l.
Proof.
  unfold py_slice_from. change (-20 <? 0)%Z with true. cbv iota zeta.
  f_equal. lia.
Qed.

(** C6: for a history of length [N] the history endpoint returns
    [min N 20] entries, never more than 20; they are the last entries of the
    history in the order they were appended (the history is some older
    entries followed by exactly the returned ones); and the call leaves the
    application state, the history included, as it was. *)
Theorem history_view_last_20 (st : AppState) :
  exists count scans,
    get_scan_history st =
      (inr (PyDict [("count", PyInt count); ("scans", PyList scans)]), st) /\
    length scans = Nat.min (length (scan_history st)) 20 /\
    length scans <= 20 /\
    scans = drop (length (scan_history st) - 20) (scan_history st) /\
    scan_history st = take (length (scan_history st) - 20) (scan_history st) ++ scans /\
    forall i, i < length scans ->
      scans !! i = scan_history st !! (length (scan_history st) - length scans + i).
Proof.
  exists (Z.of_nat (length (scan_history st))), (py_slice_from (-20) (scan_history st)).
  split; [reflexivity|].
  rewrite py_slice_last_20.
  set (h := scan_history st).
  assert (Hlen : length (drop (length h - 20) h) = Nat.min (length h) 20)
    by (rewrite length_drop; lia).
  split; [exact Hlen|]. split; [lia|]. split; [reflexivity|].
  split; [symmetry; apply take_drop|].
  intros i Hi. rewrite lookup_drop. f_equal. lia.
Qed.

(** C10: the [count] the history endpoint returns is the length of the whole
    history list, not of the returned view: with more than 20 entries in the
    history, [count] is above 20 and above the number of returned scans. *)
Theorem history_count_is_total (st : AppState) :
  exists count scans,
    get_scan_history st =
      (inr (PyDict [("count", PyInt count); ("scans", PyList scans)]), st) /\
    count = Z.of_nat (length (scan_history st)) /\
    (20 < length (scan_history st) ->
     (20 < count)%Z /\ (Z.of_nat (length scans) < count)%Z /\ length scans = 20).
Proof.
  exists (Z.of_nat (length (scan_history st))), (py_slice_from (-20) (scan_history st)).
  split; [reflexivity|]. split; [reflexivity|].
  rewrite py_slice_last_20, length_drop. lia.
Qed.

(** ** Completed sessions in the history *)

Lemma run_actions_app acts1 acts2 s :
  run_actions (acts1 ++ acts2) s = run_actions acts2 (run_actions acts1 s).
Proof. apply fold_left_app. Qed.

Lemma start_then_stop t t' st q :
  run_actions [("start-scan", t); ("stop-scan", t')] (st, q) =
    (set_current_scan_data PyNone
       (set_ui_state_text "State: IDLE"
          (set_app_state "IDLE"
             (history_append (new_session t)
                (set_current_scan_data (new_session t)
                   (set_ui_state_text "State: BLANKING_COUNTDOWN"
                      (set_app_state "BLANKING_COUNTDOWN" st)))))),
     q ++ [new_session t]).
Proof.
  unfold run_actions, fold_left, action_step. cbn [fst snd].
  rewrite handle_action_start. cbn [snd]. rewrite handle_action_stop. reflexivity.
Qed.

(** One session per clock reading: [start-scan] at that time, then
    [stop-scan]. *)
Lemma completed_sessions_are_recorded (times : list datetime) (st : AppState)
    (q : BackgroundTasks) :
  let s' := run_actions
              (flat_map (fun t => [("start-scan", t); ("stop-scan", t)]) times) (st, q) in
  scan_history (fst s') = scan_history st ++ map new_session times /\
  snd s' = q ++ map new_session times.
Proof.
  cbv zeta. set (session := fun t : datetime => [("start-scan", t); ("stop-scan", t)]).
  revert st q. induction times as [|t times IH]; intros st q.
  - simpl. rewrite !app_nil_r. split; reflexivity.
  - change (flat_map session (t :: times)) with (session t ++ flat_map session times).
    rewrite run_actions_app.
    change (session t) with [("start-scan", t); ("stop-scan", t)].
    rewrite start_then_stop.
    match goal with
    | |- context [run_actions _ (?st1, ?q1)] => destruct (IH st1 q1) as [Hh Hq]
    end.
    split.
    + etransitivity; [exact Hh|]. cbn [scan_history history_append set_app_state
        set_ui_state_text set_current_scan_data map].
      rewrite <- app_assoc. reflexivity.
    + etransitivity; [exact Hq|]. rewrite <- app_assoc. reflexivity.
Qed.

(** After [N] completed sessions since start-up the history endpoint shows
    [min N 20] of them and counts [N]. *)
Lemma history_after_sessions (times : list datetime) :
  let s' := run_actions
              (flat_map (fun t => [("start-scan", t); ("stop-scan", t)]) times)
              (init_state, []) in
  fst (get_scan_history (fst s')) =
    inr (PyDict [("count", PyInt (Z.of_nat (length times)));
                 ("scans", PyList (map new_session (drop (length times - 20) times)))]).
Proof.
  intros s'.
  assert (Hh : scan_history (fst s') = map new_session times)
    by apply (completed_sessions_are_recorded times init_state []).
  change (fst (get_scan_history (fst s'))) with
    (inr (A:=Exception)
       (PyDict [("count", PyInt (Z.of_nat (length (scan_history (fst s')))));
                ("scans", PyList (py_slice_from (-20) (scan_history (fst s'))))])).
  rewrite py_slice_last_20, Hh, length_map. do 6 f_equal. apply skipn_map.
Qed.

(** ** Frame ingestion *)

Section FrameStore.

Context {ndarray : Type}.
Variable imdecode : list Byte.byte -> Exception + option ndarray.

Lemma receive_frame_decodable contents img st :
  imdecode contents = inr (Some img) ->
  receive_frame imdecode contents st =
    (inr (PyDict [("status", PyStr "ok");
                  ("frame_size", PyInt (Z.of_nat (length contents)))]),
     set_latest_frame_jpeg (Some contents) st).
Proof. intros H. unfold receive_frame. run_handler. rewrite H. reflexivity. Qed.

(** C3, the behaviour of the code: an upload that does not decode is reported
    as an error (status 500 wrapping the cause, which is the 400
    ["Invalid JPEG"] when the decoder returns [None]), and the latest frame
    afterwards is the rejected upload, whatever frame was stored before. *)
Theorem undecodable_frame_overwrites (contents : list Byte.byte) (st : AppState) :
  (forall img, imdecode contents <> inr (Some img)) ->
  exists cause,
    receive_frame imdecode contents st =
      (inl (HTTPException 500 (StrOf cause)), set_latest_frame_jpeg (Some contents) st) /\
    latest_frame_jpeg (snd (receive_frame imdecode contents st)) = Some contents /\
    (imdecode contents = inr None -> cause = HTTPException 400 (Lit "Invalid JPEG")).
Proof.
  intros Hbad. unfold receive_frame. run_handler.
  destruct (imdecode contents) as [e|[img|]] eqn:E.
  - exists e. repeat split. intros; discriminate.
  - exfalso. exact (Hbad img eq_refl).
  - eexists. repeat split.
Qed.

End FrameStore.

(** The theorem with a valid frame stored and the two bytes [no] uploaded:
    the stored frame is replaced by the rejected upload. *)
Lemma undecodable_frame_overwrites_witness :
  let st := set_latest_frame_jpeg (Some [Byte.xff; Byte.xd8; Byte.xff]) init_state in
  exists cause,
    receive_frame sample_imdecode [Byte.x6e; Byte.x6f] st =
      (inl (HTTPException 500 (StrOf cause)),
       set_latest_frame_jpeg (Some [Byte.x6e; Byte.x6f]) st) /\
    latest_frame_jpeg (snd (receive_frame sample_imdecode [Byte.x6e; Byte.x6f] st)) =
      Some [Byte.x6e; Byte.x6f] /\
    (sample_imdecode [Byte.x6e; Byte.x6f] = inr None ->
     cause = HTTPException 400 (Lit "Invalid JPEG")).
Proof.
  intros st.
  apply (undecodable_frame_overwrites sample_imdecode [Byte.x6e; Byte.x6f] st).
  intros img; discriminate.
Defined.

(** ** Record store *)

Lemma record_filename_of_id now :
  record_filename now = RECORDS_DIR +:+ "/" +:+ record_id now +:+ ".json".
Proof. reflexivity. Qed.

Section RecordStore.

Context {text : Type}.
Variable json_dumps : pyval -> text.
Variable json_loads : text -> option pyval.

Lemma get_scan_record_found scan_id (fs : gmap string text) contents data :
  fs !! (RECORDS_DIR +:+ "/" +:+ scan_id +:+ ".json") = Some contents ->
  json_loads contents = Some data ->
  get_scan_record json_loads scan_id fs = (inr data, fs).
Proof.
  intros Hf Hl. unfold get_scan_record. run_handler. rewrite Hf, Hl. reflexivity.
Qed.

(** C5, the behaviour of the code: for an identifier with no record file, and
    for a record file whose text does not parse, [get_scan_record] raises
    [HTTPException] with status 500 in both cases; the 404
    ["Scan not found"] raised for the missing file is caught by the
    handler's own [except Exception] and survives only as the cause inside
    the detail. *)
Theorem record_errors_become_500 (scan_id : string) (fs : gmap string text) :
  let filepath := RECORDS_DIR +:+ "/" +:+ scan_id +:+ ".json" in
  (fs !! filepath = None \/
   exists contents, fs !! filepath = Some contents /\ json_loads contents = None) ->
  exists cause,
    get_scan_record json_loads scan_id fs = (inl (HTTPException 500 (StrOf cause)), fs) /\
    (fs !! filepath = None -> cause = HTTPException 404 (Lit "Scan not found")) /\
    (is_Some (fs !! filepath) -> cause = JSONDecodeError).
Proof.
  intros filepath H. unfold get_scan_record. run_handler. fold filepath.
  destruct H as [Hnone|(contents & Hf & Hl)].
  - rewrite Hnone. eexists. split; [reflexivity|]. split; [reflexivity|].
    intros [? ?]; discriminate.
  - rewrite Hf, Hl. eexists. split; [reflexivity|]. split; [discriminate|reflexivity].
Qed.

(** What [save_result] does for a body whose [analysis] member is absent or
    an object. *)
Lemma save_result_ok entries analysis now1 now2 st (fs : gmap string text) :
  default (PyDict []) (assoc_get "analysis" entries) = PyDict analysis ->
  save_result json_dumps (PyDict entries) now1 now2 (st, fs) =
    (inr (PyDict [("status", PyStr "saved"); ("filename", PyStr (record_filename now1))]),
     (history_append
        (PyDict [("timestamp", PyStr (isoformat now2));
                 ("filename", PyStr (record_filename now1));
                 ("v0", default PyNone (assoc_get "v0" analysis));
                 ("r_squared", default PyNone (assoc_get "r_squared" analysis))]) st,
      <[record_filename now1 := json_dumps (PyDict entries)]> fs)).
Proof.
  intros Ha. unfold save_result, py_get, write_file. run_handler. rewrite Ha.
  reflexivity.
Qed.

(** When [analysis] is present and not an object, the record file is written
    all the same, then the handler fails with status 500 and appends nothing
    to the history. *)
Lemma save_result_bad_analysis entries other now1 now2 st (fs : gmap string text) :
  assoc_get "analysis" entries = Some other ->
  (forall analysis, other <> PyDict analysis) ->
  save_result json_dumps (PyDict entries) now1 now2 (st, fs) =
    (inl (HTTPException 500 (StrOf (AttributeError "get"))),
     (st, <[record_filename now1 := json_dumps (PyDict entries)]> fs)).
Proof.
  intros Ha Hn. unfold save_result, py_get, write_file. run_handler. rewrite Ha. simpl.
  destruct other; try reflexivity. exfalso. eapply Hn. reflexivity.
Qed.

(** C4, as amended: for every body whose [analysis] member is absent or an
    object and which the JSON codec reads back as written, [save_result]
    writes the record file before it answers, appends one summary entry to
    the history, and answers with the file name [records/<id>.json]; the
    record is then retrieved, equal to the body, under [<id>], the file
    name without directory and extension. *)
Theorem saved_record_roundtrip (entries analysis : list (string * pyval))
    (now1 now2 : datetime) (st : AppState) (fs : gmap string text) :
  default (PyDict []) (assoc_get "analysis" entries) = PyDict analysis ->
  json_loads (json_dumps (PyDict entries)) = Some (PyDict entries) ->
  exists summary st' fs',
    save_result json_dumps (PyDict entries) now1 now2 (st, fs) =
      (inr (PyDict [("status", PyStr "saved");
                    ("filename", PyStr (RECORDS_DIR +:+ "/" +:+ record_id now1 +:+ ".json"))]),
       (st', fs')) /\
    fs' !! (RECORDS_DIR +:+ "/" +:+ record_id now1 +:+ ".json") =
      Some (json_dumps (PyDict entries)) /\
    scan_history st' = scan_history st ++ [summary] /\
    summary = PyDict [("timestamp", PyStr (isoformat now2));
                      ("filename", PyStr (record_filename now1));
                      ("v0", default PyNone (assoc_get "v0" analysis));
                      ("r_squared", default PyNone (assoc_get "r_squared" analysis))] /\
    get_scan_record json_loads (record_id now1) fs' = (inr (PyDict entries), fs').
Proof.
  intros Ha Hrt. do 3 eexists.
  split; [rewrite <- record_filename_of_id; apply (save_result_ok _ _ _ _ _ _ Ha)|].
  rewrite <- record_filename_of_id.
  split; [apply lookup_insert_eq|].
  split; [reflexivity|]. split; [reflexivity|].
  eapply get_scan_record_found; [|exact Hrt].
  rewrite <- record_filename_of_id. apply lookup_insert_eq.
Qed.

End RecordStore.

(** ** The record store on sample inputs *)

(** The theorem at an identifier never written, on an empty directory. *)
Lemma record_errors_become_500_witness :
  exists cause,
    get_scan_record sample_loads "scan_19990101_000000" ∅ =
      (inl (HTTPException 500 (StrOf cause)), ∅) /\
    ((∅ : gmap string (option pyval)) !! "records/scan_19990101_000000.json" = None ->
     cause = HTTPException 404 (Lit "Scan not found")) /\
    (is_Some ((∅ : gmap string (option pyval)) !! "records/scan_19990101_000000.json") ->
     cause = JSONDecodeError).
Proof.
  apply (record_errors_become_500 sample_loads "scan_19990101_000000" ∅).
  left. apply lookup_empty.
Defined.

(** A file that does not parse is reported with the same status. *)
Example corrupt_record_is_500 :
  get_scan_record sample_loads "scan_x" {["records/scan_x.json" := None]} =
    (inl (HTTPException 500 (StrOf JSONDecodeError)), {["records/scan_x.json" := None]}).
Proof.
  unfold get_scan_record. run_handler.
  change (RECORDS_DIR +:+ "/" +:+ "scan_x" +:+ ".json") with "records/scan_x.json".
  rewrite lookup_singleton_eq. reflexivity.
Qed.

(** The theorem at the sample result, saved at [t0] into an empty directory. *)
Lemma saved_record_roundtrip_witness :
  exists summary st' fs',
    save_result sample_dumps sample_result t0 t0 (init_state, ∅) =
      (inr (PyDict [("status", PyStr "saved");
                    ("filename", PyStr "records/scan_20240309_140507.json")]),
       (st', fs')) /\
    fs' !! "records/scan_20240309_140507.json" = Some (sample_dumps sample_result) /\
    scan_history st' = [] ++ [summary] /\
    summary = PyDict [("timestamp", PyStr "2024-03-09T14:05:07");
                      ("filename", PyStr "records/scan_20240309_140507.json");
                      ("v0", PyFloat 0x3FE0000000000000);
                      ("r_squared", PyFloat 0x3FF0000000000000)] /\
    get_scan_record sample_loads "scan_20240309_140507" fs' = (inr sample_result, fs').
Proof.
  apply (saved_record_roundtrip sample_dumps sample_loads
           [("analysis", PyDict [("v0", PyFloat 0x3FE0000000000000);
                                 ("r_squared", PyFloat 0x3FF0000000000000)])]
           [("v0", PyFloat 0x3FE0000000000000); ("r_squared", PyFloat 0x3FF0000000000000)]
           t0 t0 init_state ∅); reflexivity.
Defined.

(** C4, counterexample: the response to a successful save carries the file
    name [records/scan_20240309_140507.json] and no other identifier; handing
    any string of the response to [get_scan_record] does not return the saved
    body, because the handler looks for [records/<id>.json]. *)
Lemma returned_filename_is_not_an_id :
  let out := save_result sample_dumps sample_result t0 t0 (init_state, ∅) in
  let fs' := snd (snd out) in
  exists fields,
    fst out = inr (PyDict fields) /\
    fields = [("status", PyStr "saved");
              ("filename", PyStr "records/scan_20240309_140507.json")] /\
    get_scan_record sample_loads "records/scan_20240309_140507.json" fs' =
      (inl (HTTPException 500 (StrOf (HTTPException 404 (Lit "Scan not found")))), fs') /\
    forall k rid, assoc_get k fields = Some (PyStr rid) ->
      fst (get_scan_record sample_loads rid fs') <> inr sample_result.
Proof.
  intros out fs'. eexists. split; [reflexivity|]. split; [reflexivity|].
  assert (Hfs : fs' = {["records/scan_20240309_140507.json" := Some sample_result]}).
  { subst fs' out. unfold sample_result. erewrite save_result_ok by reflexivity.
    simpl. apply insert_empty. }
  assert (Hmiss : forall rid,
            RECORDS_DIR +:+ "/" +:+ rid +:+ ".json" <> "records/scan_20240309_140507.json" ->
            get_scan_record sample_loads rid fs' =
              (inl (HTTPException 500 (StrOf (HTTPException 404 (Lit "Scan not found")))),
               fs')).
  { intros rid Hne. unfold get_scan_record. run_handler. rewrite Hfs.
    rewrite lookup_singleton_ne; [reflexivity|]. intros H. apply Hne. symmetry. exact H. }
  split; [apply Hmiss; discriminate|].
  intros k rid. simpl.
  destruct (String.eqb k "status").
  { intros [= <-]. rewrite Hmiss; discriminate. }
  destruct (String.eqb k "filename"); [|discriminate].
  intros [= <-]. rewrite Hmiss; discriminate.
Qed.

(** ** The whole service *)

Section Service.

Context {ndarray text : Type}.
Variable imdecode : list Byte.byte -> Exception + option ndarray.
Variable json_dumps : pyval -> text.
Variable json_loads : text -> option pyval.

Lemma get_latest_frame_state st : snd (get_latest_frame st) = st.
Proof.
  unfold get_latest_frame. run_handler.
  destruct (frame_missing (latest_frame_jpeg st)); reflexivity.
Qed.

Lemma receive_frame_state contents st :
  snd (receive_frame imdecode contents st) = set_latest_frame_jpeg (Some contents) st.
Proof.
  unfold receive_frame. run_handler.
  destruct (imdecode contents) as [e|[img|]]; reflexivity.
Qed.

Lemma save_result_state result_data now1 now2 st (fs : gmap string text) :
  fst (snd (save_result json_dumps result_data now1 now2 (st, fs))) = st \/
  exists summary,
    fst (snd (save_result json_dumps result_data now1 now2 (st, fs))) =
      history_append summary st.
Proof.
  destruct result_data as [| | | | | |items|entries]; try (left; reflexivity).
  destruct (default (PyDict []) (assoc_get "analysis" entries)) as [| | | | | | |analysis] eqn:Ha;
    try (left; unfold save_result, py_get, write_file; run_handler; rewrite Ha; reflexivity).
  right. eexists. rewrite (save_result_ok json_dumps _ _ _ _ _ _ Ha). reflexivity.
Qed.

(** The action endpoint treats the queue it is handed as opaque: the state it
    leaves does not depend on it. *)
Lemma handle_action_state_any_queue action now st q :
  fst (snd (handle_action action now (st, q))) = fst (action_step (st, []) (action, now)).
Proof.
  unfold action_step. simpl fst; simpl snd.
  destruct (String.eqb_spec action "start-scan") as [->|N1]; [reflexivity|].
  destruct (String.eqb_spec action "proceed-to-scan") as [->|N2]; [reflexivity|].
  destruct (String.eqb_spec action "stop-scan") as [->|N3].
  { rewrite !handle_action_stop. destruct (truthy (current_scan_data st)); reflexivity. }
  rewrite !handle_action_unknown by assumption. reflexivity.
Qed.

Lemma session_inv_same st st' :
  app_state st' = app_state st -> current_scan_data st' = current_scan_data st ->
  session_inv st -> session_inv st'.
Proof.
  intros Ha Hs [H1 H2|now H1 H2|now H1 H2|H1 H2]; rewrite <- Ha in H1; rewrite <- Hs in H2.
  - apply inv_idle; assumption.
  - eapply inv_blanking; eassumption.
  - eapply inv_scanning_live; eassumption.
  - apply inv_scanning_empty; assumption.
Qed.

(** No request handler and no background task breaks the relation between
    state name and session. *)
Lemma serve_session_inv req w :
  session_inv (app w) -> session_inv (app (snd (serve imdecode json_dumps json_loads req w))).
Proof.
  intros Hinv. destruct req; cbn [serve with_app app fst snd]; try exact Hinv.
  - rewrite get_latest_frame_state. exact Hinv.
  - rewrite receive_frame_state. revert Hinv. apply session_inv_same; reflexivity.
  - rewrite handle_action_state_any_queue.
    apply (session_inv_step (app w, []) (action, now)), Hinv.
  - destruct (save_result_state result_data now1 now2 (app w) (files w)) as [->|[e ->]];
      [exact Hinv|]. revert Hinv. apply session_inv_same; reflexivity.
  - destruct (pending w); exact Hinv.
Qed.

Lemma run_server_session_inv reqs w :
  session_inv (app w) -> session_inv (app (run_server imdecode json_dumps json_loads reqs w)).
Proof.
  revert w. induction reqs as [|req reqs IH]; intros w Hinv; [exact Hinv|].
  simpl. apply IH, serve_session_inv, Hinv.
Qed.

(** Whatever requests were served since start-up, an [IDLE] service holds no
    session. *)
Lemma idle_service_has_no_session reqs :
  let st := app (run_server imdecode json_dumps json_loads reqs init_world) in
  app_state st = "IDLE" -> current_scan_data st = PyNone.
Proof.
  intros st Ha.
  assert (Hinv : session_inv st) by (apply run_server_session_inv, session_inv_init).
  destruct Hinv as [_ Hs|? Hb _|? Hb _|Hb _]; congruence.
Qed.

(** The history is append-only: a request leaves it alone or adds one entry
    at the end; nothing is ever removed or rewritten. *)
Lemma serve_history_append_only req w :
  exists added,
    scan_history (app (snd (serve imdecode json_dumps json_loads req w))) = scan_history (app w) ++ added /\
    length added <= 1.
Proof.
  destruct req; cbn [serve with_app app fst snd];
    rewrite ?get_latest_frame_state;
    try (exists []; rewrite app_nil_r; split; [reflexivity|simpl; lia]).
  - exists []. rewrite receive_frame_state, app_nil_r. split; [reflexivity|simpl; lia].
  - rewrite handle_action_state_any_queue. unfold action_step. simpl fst; simpl snd.
    destruct (String.eqb_spec action "start-scan") as [->|N1];
      [exists []; rewrite app_nil_r; split; [reflexivity|simpl; lia]|].
    destruct (String.eqb_spec action "proceed-to-scan") as [->|N2];
      [exists []; rewrite app_nil_r; split; [reflexivity|simpl; lia]|].
    destruct (String.eqb_spec action "stop-scan") as [->|N3].
    { rewrite handle_action_stop. destruct (truthy (current_scan_data (app w))).
      - eexists [_]. split; [reflexivity|simpl; lia].
      - exists []. rewrite app_nil_r. split; [reflexivity|simpl; lia]. }
    rewrite handle_action_unknown by assumption.
    exists []. rewrite app_nil_r. split; [reflexivity|simpl; lia].
  - destruct (save_result_state result_data now1 now2 (app w) (files w)) as [->|[e ->]].
    + exists []. rewrite app_nil_r. split; [reflexivity|simpl; lia].
    + exists [e]. split; [reflexivity|simpl; lia].
  - destruct (pending w); exists []; rewrite app_nil_r; (split; [reflexivity|simpl; lia]).
Qed.

End Service.

(** * Further properties of the handlers *)

(** ** Sessions along runs of the action endpoint *)

Lemma action_step_start t st q :
  action_step (st, q) ("start-scan", t) =
    (set_current_scan_data (new_session t)
       (set_ui_state_text "State: BLANKING_COUNTDOWN"
          (set_app_state "BLANKING_COUNTDOWN" st)), q).
Proof. reflexivity. Qed.

Lemma action_step_proceed t st q :
  action_step (st, q) ("proceed-to-scan", t) =
    (set_ui_state_text "State: SCANNING" (set_app_state "SCANNING" st), q).
Proof. reflexivity. Qed.

Lemma action_step_stop t st q :
  action_step (st, q) ("stop-scan", t) =
    if truthy (current_scan_data st) then
      (set_current_scan_data PyNone
         (set_ui_state_text "State: IDLE"
            (set_app_state "IDLE" (history_append (current_scan_data st) st))),
       q ++ [current_scan_data st])
    else
      (set_current_scan_data PyNone
         (set_ui_state_text "State: IDLE" (set_app_state "IDLE" st)), q).
Proof.
  unfold action_step. cbn [fst snd]. rewrite handle_action_stop.
  destruct (truthy (current_scan_data st)); reflexivity.
Qed.

Lemma action_step_unknown action t st q :
  action <> "start-scan" -> action <> "stop-scan" -> action <> "proceed-to-scan" ->
  action_step (st, q) (action, t) = (st, q).
Proof.
  intros. unfold action_step. cbn [fst snd].
  rewrite handle_action_unknown by assumption. reflexivity.
Qed.

Lemma run_actions_cons a acts s :
  run_actions (a :: acts) s = run_actions acts (action_step s a).
Proof. reflexivity. Qed.

(** Repeated [start-scan] calls change neither the history nor the queue. *)
Lemma run_starts times st q :
  let s' := run_actions (map (fun t => ("start-scan", t)) times) (st, q) in
  scan_history (fst s') = scan_history st /\ snd s' = q /\
  latest_frame_jpeg (fst s') = latest_frame_jpeg st.
Proof.
  cbv zeta. revert st. induction times as [|t times IH]; intros st.
  - repeat split.
  - cbn [map]. rewrite run_actions_cons, action_step_start.
    match goal with
    | |- context [run_actions _ (?st1, q)] => destruct (IH st1) as (H1 & H2 & H3)
    end.
    repeat split; assumption.
Qed.

(** X1: a [start-scan] issued while a session is live replaces that session
    without recording it: after any number of [start-scan] calls followed by
    one [stop-scan], exactly one entry has been appended to the history and
    one persistence task queued, both the session of the last [start-scan];
    the earlier sessions, and any session held before, are gone. *)
Theorem restart_discards_live_session (times : list datetime) (t t' : datetime)
    (st : AppState) (q : BackgroundTasks) :
  let s' := run_actions
              (map (fun u => ("start-scan", u)) times ++
               [("start-scan", t); ("stop-scan", t')]) (st, q) in
  scan_history (fst s') = scan_history st ++ [new_session t] /\
  snd s' = q ++ [new_session t] /\
  app_state (fst s') = "IDLE" /\
  current_scan_data (fst s') = PyNone.
Proof.
  cbv zeta. rewrite run_actions_app.
  destruct (run_starts times st q) as (Hh & Hq & _). cbv zeta in Hh, Hq.
  destruct (run_actions (map (fun u => ("start-scan", u)) times) (st, q)) as [st1 q1].
  cbn [fst snd] in Hh, Hq. subst q1. rewrite start_then_stop. cbn [fst snd].
  repeat split. cbn. rewrite Hh. reflexivity.
Qed.

(** X2: [stop-scan] is idempotent from every state: a second [stop-scan]
    succeeds, leaves the state and the task queue exactly as the first one
    left them, and so records nothing twice. *)
Theorem stop_scan_idempotent (t t' : datetime) (st : AppState) (q : BackgroundTasks) :
  let s1 := action_step (st, q) ("stop-scan", t) in
  handle_action "stop-scan" t' s1 = (inr (status_response "scan_stopped"), s1).
Proof.
  cbv zeta. rewrite action_step_stop.
  destruct (truthy (current_scan_data st)); rewrite handle_action_stop; reflexivity.
Qed.

Lemma run_proceeds times st q :
  let s' := run_actions (map (fun t => ("proceed-to-scan", t)) times) (st, q) in
  scan_history (fst s') = scan_history st /\ snd s' = q /\
  current_scan_data (fst s') = current_scan_data st /\
  latest_frame_jpeg (fst s') = latest_frame_jpeg st.
Proof.
  cbv zeta. revert st. induction times as [|t times IH]; intros st.
  - repeat split.
  - cbn [map]. rewrite run_actions_cons, action_step_proceed.
    match goal with
    | |- context [run_actions _ (?st1, q)] => destruct (IH st1) as (H1 & H2 & H3 & H4)
    end.
    repeat split; assumption.
Qed.

(** X3: one complete session, [start-scan], any number of [proceed-to-scan],
    then [stop-scan], from any state: the service is back in [IDLE] without a
    session, the history has grown by exactly the session created at
    [start-scan], the same object has been queued once for persistence, and
    the latest frame is untouched. *)
Theorem complete_session_recorded_once (t t' : datetime) (proceeds : list datetime)
    (st : AppState) (q : BackgroundTasks) :
  let s' := run_actions
              (("start-scan", t) :: map (fun u => ("proceed-to-scan", u)) proceeds ++
               [("stop-scan", t')]) (st, q) in
  app_state (fst s') = "IDLE" /\
  ui_state_text (fst s') = "State: IDLE" /\
  current_scan_data (fst s') = PyNone /\
  scan_history (fst s') = scan_history st ++ [new_session t] /\
  snd s' = q ++ [new_session t] /\
  latest_frame_jpeg (fst s') = latest_frame_jpeg st.
Proof.
  cbv zeta. rewrite run_actions_cons, action_step_start, run_actions_app.
  match goal with
  | |- context [run_actions (map _ proceeds) (?st1, q)] =>
      destruct (run_proceeds proceeds st1 q) as (Hh & Hq & Hs & Hf);
      cbv zeta in Hh, Hq, Hs, Hf;
      destruct (run_actions (map (fun u => ("proceed-to-scan", u)) proceeds) (st1, q))
        as [st2 q2]
  end.
  cbn [fst snd] in Hh, Hq, Hs, Hf. subst q2.
  cbn [run_actions fold_left]. rewrite action_step_stop, Hs.
  cbn [set_current_scan_data current_scan_data truthy new_session fst snd].
  repeat split; cbn; rewrite ?Hh, ?Hf, ?Hs; reflexivity.
Qed.

Lemma action_step_added s a :
  exists added,
    scan_history (fst (action_step s a)) = scan_history (fst s) ++ added /\
    snd (action_step s a) = snd s ++ added /\
    length added <= (if String.eqb (fst a) "stop-scan" then 1 else 0) /\
    Forall (fun v => truthy v = true) added.
Proof.
  destruct s as [st q], a as [action t]. cbn [fst snd].
  destruct (String.eqb_spec action "start-scan") as [->|N1].
  { exists []. rewrite action_step_start, !app_nil_r. repeat split; [cbn; lia|constructor]. }
  destruct (String.eqb_spec action "proceed-to-scan") as [->|N2].
  { exists []. rewrite action_step_proceed, !app_nil_r. repeat split; [cbn; lia|constructor]. }
  destruct (String.eqb_spec action "stop-scan") as [->|N3].
  { rewrite action_step_stop. destruct (truthy (current_scan_data st)) eqn:T.
    - exists [current_scan_data st]. repeat split; [cbn; lia|].
      constructor; [exact T|constructor].
    - exists []. rewrite !app_nil_r. repeat split; [cbn; lia|constructor]. }
  exists []. rewrite action_step_unknown, !app_nil_r by assumption.
  repeat split; [cbn; lia|constructor].
Qed.

(** X4: along every run of the action endpoint the history and the queue of
    persistence tasks grow in step: the entries appended to the history are
    exactly the objects queued for saving, in the same order, at most one per
    [stop-scan] call, and none of them is an empty object. *)
Theorem queued_tasks_match_history (acts : list (string * datetime))
    (st : AppState) (q : BackgroundTasks) :
  exists added,
    scan_history (fst (run_actions acts (st, q))) = scan_history st ++ added /\
    snd (run_actions acts (st, q)) = q ++ added /\
    length added <= length (List.filter (fun a => String.eqb (fst a) "stop-scan") acts) /\
    Forall (fun v => truthy v = true) added.
Proof.
  revert st q. induction acts as [|a acts IH]; intros st q.
  - exists []. rewrite !app_nil_r. repeat split; [cbn; lia|constructor].
  - rewrite run_actions_cons.
    destruct (action_step_added (st, q) a) as (added1 & Hh1 & Hq1 & Hl1 & Ht1).
    destruct (action_step (st, q) a) as [st1 q1]. cbn [fst snd] in Hh1, Hq1.
    destruct (IH st1 q1) as (added2 & Hh2 & Hq2 & Hl2 & Ht2).
    exists (added1 ++ added2). rewrite Hh2, Hq2, Hh1, Hq1, <- !app_assoc.
    repeat split.
    + rewrite length_app. cbn [List.filter].
      destruct (String.eqb (fst a) "stop-scan"); cbn [length]; lia.
    + apply Forall_app; split; assumption.
Qed.

(** ** Frames: ingest, then read back *)

Lemma get_latest_frame_stored contents st :
  get_latest_frame (set_latest_frame_jpeg (Some contents) st) =
    (match contents with
     | [] => inl (HTTPException 404 (Lit "No frame available"))
     | _ :: _ => inr (PyDict [("data", PyBytes contents)])
     end, set_latest_frame_jpeg (Some contents) st).
Proof. destruct contents; reflexivity. Qed.

Section FrameRoundTrip.

Context {ndarray : Type}.
Variable imdecode : list Byte.byte -> Exception + option ndarray.

(** X5: a decodable, non-empty upload of [S] bytes is answered with
    [{status: ok, frame_size: S}]; a following read of the latest frame
    returns exactly the uploaded bytes; and the ingest changes nothing but the
    stored frame: state name, session and history stay as they were, whatever
    the state (no session is required and the frame is not added to one). *)
Theorem accepted_frame_is_served (contents : list Byte.byte) (img : ndarray)
    (st : AppState) :
  imdecode contents = inr (Some img) -> contents <> [] ->
  exists st1,
    receive_frame imdecode contents st =
      (inr (PyDict [("status", PyStr "ok");
                    ("frame_size", PyInt (Z.of_nat (length contents)))]), st1) /\
    get_latest_frame st1 = (inr (PyDict [("data", PyBytes contents)]), st1) /\
    app_state st1 = app_state st /\
    current_scan_data st1 = current_scan_data st /\
    scan_history st1 = scan_history st.
Proof.
  intros Hdec Hne. eexists. split; [apply (receive_frame_decodable _ _ img), Hdec|].
  split; [|repeat split].
  rewrite get_latest_frame_stored. destruct contents; [contradiction|reflexivity].
Qed.

(** X6: whatever the body and whether or not the upload was accepted, the
    frame read back after an ingest is the uploaded body; for an empty body
    the read fails with 404 ["No frame available"], also when a frame was
    stored before.  State name, session and history are never touched. *)
Theorem latest_frame_after_ingest (contents : list Byte.byte) (st : AppState) :
  let st1 := snd (receive_frame imdecode contents st) in
  get_latest_frame st1 =
    (match contents with
     | [] => inl (HTTPException 404 (Lit "No frame available"))
     | _ :: _ => inr (PyDict [("data", PyBytes contents)])
     end, st1) /\
  app_state st1 = app_state st /\
  current_scan_data st1 = current_scan_data st /\
  scan_history st1 = scan_history st.
Proof.
  cbv zeta.
  assert (Hst : snd (receive_frame imdecode contents st) =
                set_latest_frame_jpeg (Some contents) st).
  { unfold receive_frame. run_handler.
    destruct (imdecode contents) as [e|[img|]]; reflexivity. }
  rewrite Hst. split; [apply get_latest_frame_stored|repeat split].
Qed.

End FrameRoundTrip.

(** The theorem with the sample decoder and a three-byte JPEG prefix. *)
Lemma accepted_frame_is_served_witness :
  exists st1,
    receive_frame sample_imdecode [Byte.xff; Byte.xd8; Byte.xff] init_state =
      (inr (PyDict [("status", PyStr "ok"); ("frame_size", PyInt 3)]), st1) /\
    get_latest_frame st1 =
      (inr (PyDict [("data", PyBytes [Byte.xff; Byte.xd8; Byte.xff])]), st1) /\
    app_state st1 = "IDLE" /\
    current_scan_data st1 = PyNone /\
    scan_history st1 = [].
Proof.
  apply (accepted_frame_is_served sample_imdecode [Byte.xff; Byte.xd8; Byte.xff] tt
           init_state); [reflexivity|discriminate].
Defined.

(** ** Record file names *)

Lemma string_length_app (a b : string) :
  String.length (a +:+ b) = String.length a + String.length b.
Proof.
  induction a as [|c a IH]; [reflexivity|].
  change (S (String.length (a +:+ b)) = S (String.length a + String.length b)).
  rewrite IH. reflexivity.
Qed.

Lemma string_app_split (a a' b b' : string) :
  String.length a = String.length a' -> a +:+ b = a' +:+ b' -> a = a' /\ b = b'.
Proof.
  revert a'. induction a as [|c a IH]; intros [|c' a'] Hlen Heq; try discriminate.
  - split; [reflexivity|exact Heq].
  - cbn in Hlen, Heq. injection Heq as -> Heq. injection Hlen as Hlen.
    destruct (IH a' Hlen Heq) as [-> ->]. split; reflexivity.
Qed.

Lemma zeros_length k : String.length (zeros k) = k.
Proof.
  induction k as [|k IH]; [reflexivity|].
  change (S (String.length (zeros k)) = S k). rewrite IH. reflexivity.
Qed.

Lemma read_decimal_zeros k s : read_decimal (zeros k +:+ s) = read_decimal s.
Proof.
  induction k as [|k IH]; [reflexivity|].
  change (zeros (S k) +:+ s) with (String "0"%char (zeros k +:+ s)).
  rewrite <- IH. unfold read_decimal.
  change (NilEmpty.uint_of_string (String "0"%char (zeros k +:+ s)))
    with (uint_of_char "0"%char (NilEmpty.uint_of_string (zeros k +:+ s))).
  destruct (NilEmpty.uint_of_string (zeros k +:+ s)) as [d|]; reflexivity.
Qed.

(** The padded rendering reads back as the number. *)
Lemma read_decimal_zfill w n : read_decimal (zfill w n) = Some n.
Proof.
  unfold zfill. cbv zeta. rewrite read_decimal_zeros. unfold read_decimal, digits.
  rewrite NilEmpty.usu. cbn. rewrite Unsigned.of_to. reflexivity.
Qed.

Lemma zfill_inj w n m : zfill w n = zfill w m -> n = m.
Proof.
  intros H. apply (f_equal read_decimal) in H.
  rewrite !read_decimal_zfill in H. congruence.
Qed.

Lemma digits_short w bound :
  forallb (fun n => String.length (digits n) <=? w) (seq 0 bound) = true ->
  forall n, n < bound -> String.length (digits n) <= w.
Proof.
  intros H n Hn. rewrite forallb_forall in H.
  apply Nat.leb_le, H, in_seq. lia.
Qed.

Lemma zfill_length w n : String.length (digits n) <= w -> String.length (zfill w n) = w.
Proof.
  intros H. unfold zfill. cbv zeta. rewrite string_length_app, zeros_length. lia.
Qed.

Lemma zfill2_length n : n < 100 -> String.length (zfill 2 n) = 2.
Proof.
  intros H. apply zfill_length. revert n H. apply digits_short. vm_compute. reflexivity.
Qed.

Lemma zfill4_length n : (Z.of_nat n < 10000)%Z -> String.length (zfill 4 n) = 4.
Proof.
  intros H. apply zfill_length.
  apply (digits_short 4 (Z.to_nat 10000)); [vm_compute; reflexivity|lia].
Qed.

Lemma same_second_filename a b : same_second a b -> record_filename a = record_filename b.
Proof.
  intros (Hy & Hmo & Hd & Hh & Hmi & Hs).
  unfold record_filename, strftime_stamp. rewrite Hy, Hmo, Hd, Hh, Hmi, Hs. reflexivity.
Qed.

Lemma stamp_length dt : valid_datetime dt -> String.length (strftime_stamp dt) = 15.
Proof.
  intros (Hy & Hmo & Hd & Hh & Hmi & Hs & _). unfold strftime_stamp.
  rewrite !string_length_app, zfill4_length, !zfill2_length by lia. reflexivity.
Qed.

Lemma stamp_inj a b :
  valid_datetime a -> valid_datetime b ->
  strftime_stamp a = strftime_stamp b -> same_second a b.
Proof.
  intros (Hy & Hmo & Hd & Hh & Hmi & Hs & _) (Hy' & Hmo' & Hd' & Hh' & Hmi' & Hs' & _).
  unfold strftime_stamp. intros H.
  apply string_app_split in H as [H1 H]; [|rewrite !zfill4_length; lia].
  apply string_app_split in H as [H2 H]; [|rewrite !zfill2_length; lia].
  apply string_app_split in H as [H3 H]; [|rewrite !zfill2_length; lia].
  apply string_app_split in H as [_ H]; [|reflexivity].
  apply string_app_split in H as [H4 H]; [|rewrite !zfill2_length; lia].
  apply string_app_split in H as [H5 H6]; [|rewrite !zfill2_length; lia].
  apply zfill_inj in H1, H2, H3, H4, H5, H6. repeat split; assumption.
Qed.

(** X7: the file name of a record is decided by the second in which it is
    written: for clock readings in range, two writes get the same file name
    exactly when they fall into the same second (microseconds are ignored),
    and the identifier part always has 20 characters. *)
Theorem record_filename_per_second (a b : datetime) :
  valid_datetime a -> valid_datetime b ->
  (record_filename a = record_filename b <-> same_second a b) /\
  (record_id a = record_id b <-> same_second a b) /\
  String.length (record_id a) = 20.
Proof.
  intros Ha Hb.
  assert (Hlen : String.length (strftime_stamp a) = String.length (strftime_stamp b))
    by (rewrite !stamp_length by assumption; reflexivity).
  split; [|split].
  - split; [|apply same_second_filename].
    unfold record_filename. intros H.
    apply string_app_split in H as [_ H]; [|reflexivity].
    apply string_app_split in H as [_ H]; [|reflexivity].
    apply string_app_split in H as [H _]; [|exact Hlen].
    apply (stamp_inj a b Ha Hb H).
  - unfold record_id. split.
    + intros H. apply string_app_split in H as [_ H]; [|reflexivity].
      apply (stamp_inj a b Ha Hb H).
    + intros (Hy & Hmo & Hd & Hh & Hmi & Hs). unfold strftime_stamp.
      rewrite Hy, Hmo, Hd, Hh, Hmi, Hs. reflexivity.
  - unfold record_id. rewrite string_length_app, stamp_length by assumption. reflexivity.
Qed.

(** The theorem at [t0] and a reading 250 microseconds later. *)
Lemma record_filename_per_second_witness :
  (record_filename t0 = record_filename t0_later <-> same_second t0 t0_later) /\
  (record_id t0 = record_id t0_later <-> same_second t0 t0_later) /\
  String.length (record_id t0) = 20.
Proof.
  apply (record_filename_per_second t0 t0_later);
    unfold valid_datetime; cbn; repeat split; lia.
Defined.

(** ** Saving and retrieving records *)

Section RecordStoreMore.

Context {text : Type}.
Variable json_dumps : pyval -> text.
Variable json_loads : text -> option pyval.

Lemma save_result_fail entries other now1 now2 st (fs : gmap string text) :
  default (PyDict []) (assoc_get "analysis" entries) = other ->
  (forall analysis, other <> PyDict analysis) ->
  save_result json_dumps (PyDict entries) now1 now2 (st, fs) =
    (inl (HTTPException 500 (StrOf (AttributeError "get"))),
     (st, <[record_filename now1 := json_dumps (PyDict entries)]> fs)).
Proof.
  intros Ha Hn. unfold save_result, py_get, write_file. run_handler. rewrite Ha.
  destruct other; try reflexivity. exfalso. eapply Hn. reflexivity.
Qed.

(** X8: what a save does, for every request body: the record file
    [records/scan_<stamp>.json] is written in every case and no other file is
    touched; the save succeeds exactly when the [analysis] member is absent
    or an object; otherwise it fails with status 500 after the file was
    written and the application state, the history included, is unchanged. *)
Theorem save_result_outcome (entries : list (string * pyval)) (now1 now2 : datetime)
    (st : AppState) (fs : gmap string text) :
  let out := save_result json_dumps (PyDict entries) now1 now2 (st, fs) in
  snd (snd out) = <[record_filename now1 := json_dumps (PyDict entries)]> fs /\
  (forall path, path <> record_filename now1 -> snd (snd out) !! path = fs !! path) /\
  (succeeded (fst out) <->
   exists analysis, default (PyDict []) (assoc_get "analysis" entries) = PyDict analysis) /\
  (failed (fst out) ->
   fst out = inl (HTTPException 500 (StrOf (AttributeError "get"))) /\
   fst (snd out) = st).
Proof.
  cbv zeta.
  destruct (default (PyDict []) (assoc_get "analysis" entries)) as [| | | | | | |analysis] eqn:Ha;
    try (rewrite (save_result_fail _ _ _ _ _ _ Ha) by discriminate; cbn [fst snd];
         split; [reflexivity|]; split;
         [intros path Hp; apply lookup_insert_ne; congruence|];
         split; [split; [intros []|intros [? ?]; discriminate]|];
         intros _; split; reflexivity).
  rewrite (save_result_ok json_dumps _ _ _ _ _ _ Ha). cbn [fst snd].
  split; [reflexivity|]. split; [intros path Hp; apply lookup_insert_ne; congruence|].
  split; [split; [intros _; eexists; reflexivity|intros _; exact I]|intros []].
Qed.

(** X9: two saves within the same second share one record file: the second
    save replaces the first body, the directory ends up as if only the second
    had been saved, retrieval under the identifier returns the second body,
    and the history holds two entries that name the same file. *)
Theorem same_second_saves_collide (entries1 entries2 analysis1 analysis2 : list (string * pyval))
    (now1 now2 now1' now2' : datetime) (st : AppState) (fs : gmap string text) :
  same_second now1 now1' ->
  default (PyDict []) (assoc_get "analysis" entries1) = PyDict analysis1 ->
  default (PyDict []) (assoc_get "analysis" entries2) = PyDict analysis2 ->
  json_loads (json_dumps (PyDict entries2)) = Some (PyDict entries2) ->
  let s1 := snd (save_result json_dumps (PyDict entries1) now1 now2 (st, fs)) in
  let s2 := snd (save_result json_dumps (PyDict entries2) now1' now2' s1) in
  snd s2 = <[record_filename now1 := json_dumps (PyDict entries2)]> fs /\
  get_scan_record json_loads (record_id now1) (snd s2) = (inr (PyDict entries2), snd s2) /\
  exists e1 e2,
    scan_history (fst s2) = scan_history st ++ [PyDict e1; PyDict e2] /\
    assoc_get "filename" e1 = Some (PyStr (record_filename now1)) /\
    assoc_get "filename" e2 = Some (PyStr (record_filename now1)).
Proof.
  intros Hsame Ha1 Ha2 Hrt. cbv zeta.
  rewrite (save_result_ok json_dumps _ _ _ _ _ _ Ha1). cbn [snd].
  rewrite (save_result_ok json_dumps _ _ _ _ _ _ Ha2). cbn [fst snd].
  rewrite <- (same_second_filename _ _ Hsame), insert_insert_eq.
  split; [reflexivity|]. split.
  - eapply get_scan_record_found; [|exact Hrt].
    rewrite <- record_filename_of_id. apply lookup_insert_eq.
  - do 2 eexists. split; [cbn; rewrite <- app_assoc; reflexivity|].
    split; reflexivity.
Qed.

(** X10: retrieval reads and never writes: the directory is unchanged in
    every case; a value is returned exactly when [records/<id>.json] exists
    and parses to it; every failure carries status 500. *)
Theorem get_scan_record_outcome (scan_id : string) (fs : gmap string text) :
  let filepath := RECORDS_DIR +:+ "/" +:+ scan_id +:+ ".json" in
  let out := get_scan_record json_loads scan_id fs in
  snd out = fs /\
  (forall data,
     fst out = inr data <->
     exists contents, fs !! filepath = Some contents /\ json_loads contents = Some data) /\
  (failed (fst out) -> exists cause, fst out = inl (HTTPException 500 (StrOf cause))).
Proof.
  cbv zeta. unfold get_scan_record. run_handler.
  destruct (fs !! (RECORDS_DIR +:+ "/" +:+ scan_id +:+ ".json")) as [contents|] eqn:Hf.
  - destruct (json_loads contents) as [data'|] eqn:Hl.
    + split; [reflexivity|]. split; [|intros []].
      intros data. split.
      * intros [= <-]. eauto.
      * intros (c & [= <-] & Hc). congruence.
    + split; [reflexivity|]. split; [|intros _; eexists; reflexivity].
      intros data. split; [discriminate|]. intros (c & [= <-] & Hc). congruence.
  - split; [reflexivity|]. split; [|intros _; eexists; reflexivity].
    intros data. split; [discriminate|]. intros (c & Hc & _). discriminate.
Qed.

Lemma save_scan_record_files scan_data now (fs : gmap string text) :
  _save_scan_record json_dumps scan_data now fs =
    (inr tt, <[record_filename now := json_dumps scan_data]> fs).
Proof. reflexivity. Qed.

(** X11: the session handed over by [stop-scan] is persisted by the
    background task: the object queued is the one appended to the history,
    and once [_save_scan_record] has run on it at time [now], the record is
    retrieved, equal to that history entry, under the identifier of the time
    the task ran (not of the time the session started or stopped). *)
Theorem stopped_session_is_persisted (st : AppState) (q : BackgroundTasks)
    (t now : datetime) (fs : gmap string text) :
  truthy (current_scan_data st) = true ->
  json_loads (json_dumps (current_scan_data st)) = Some (current_scan_data st) ->
  let out := handle_action "stop-scan" t (st, q) in
  let fs' := snd (_save_scan_record json_dumps (current_scan_data st) now fs) in
  snd (snd out) = q ++ [current_scan_data st] /\
  scan_history (fst (snd out)) = scan_history st ++ [current_scan_data st] /\
  get_scan_record json_loads (record_id now) fs' = (inr (current_scan_data st), fs') /\
  (forall path, path <> record_filename now -> fs' !! path = fs !! path).
Proof.
  intros Ht Hrt. cbv zeta. rewrite handle_action_stop, Ht, save_scan_record_files.
  cbn [fst snd]. split; [reflexivity|]. split; [reflexivity|]. split.
  - eapply get_scan_record_found; [|exact Hrt].
    rewrite <- record_filename_of_id. apply lookup_insert_eq.
  - intros path Hp. apply lookup_insert_ne. congruence.
Qed.

(** X12: a save that reports failure is stored all the same: when the
    [analysis] member is present and not an object, the response is status
    500 and the history gets no entry, yet the body is on disk and is
    retrieved under the identifier of the save time. *)
Theorem failed_save_is_retrievable (entries : list (string * pyval)) (other : pyval)
    (now1 now2 : datetime) (st : AppState) (fs : gmap string text) :
  assoc_get "analysis" entries = Some other ->
  (forall analysis, other <> PyDict analysis) ->
  json_loads (json_dumps (PyDict entries)) = Some (PyDict entries) ->
  let out := save_result json_dumps (PyDict entries) now1 now2 (st, fs) in
  fst out = inl (HTTPException 500 (StrOf (AttributeError "get"))) /\
  fst (snd out) = st /\
  get_scan_record json_loads (record_id now1) (snd (snd out)) =
    (inr (PyDict entries), snd (snd out)).
Proof.
  intros Ha Hn Hrt. cbv zeta.
  rewrite (save_result_bad_analysis json_dumps _ _ _ _ _ _ Ha Hn). cbn [fst snd].
  split; [reflexivity|]. split; [reflexivity|].
  eapply get_scan_record_found; [|exact Hrt].
  rewrite <- record_filename_of_id. apply lookup_insert_eq.
Qed.

End RecordStoreMore.

(** The theorem for the sample result saved at [t0] and a body without
    [analysis] saved 250 microseconds later, into an empty directory. *)
Lemma same_second_saves_collide_witness :
  let s1 := snd (save_result sample_dumps sample_result t0 t0 (init_state, ∅)) in
  let s2 := snd (save_result sample_dumps (PyDict [("note", PyStr "second")])
                   t0_later t0_later s1) in
  snd s2 = <[record_filename t0 := sample_dumps (PyDict [("note", PyStr "second")])]> ∅ /\
  get_scan_record sample_loads (record_id t0) (snd s2) =
    (inr (PyDict [("note", PyStr "second")]), snd s2) /\
  exists e1 e2,
    scan_history (fst s2) = scan_history init_state ++ [PyDict e1; PyDict e2] /\
    assoc_get "filename" e1 = Some (PyStr (record_filename t0)) /\
    assoc_get "filename" e2 = Some (PyStr (record_filename t0)).
Proof.
  apply (same_second_saves_collide sample_dumps sample_loads
           [("analysis", PyDict [("v0", PyFloat 0x3FE0000000000000);
                                 ("r_squared", PyFloat 0x3FF0000000000000)])]
           [("note", PyStr "second")]
           [("v0", PyFloat 0x3FE0000000000000); ("r_squared", PyFloat 0x3FF0000000000000)]
           [] t0 t0 t0_later t0_later init_state ∅);
    [repeat split|reflexivity..].
Defined.

(** The theorem for the session started at [t0], stopped and saved later. *)
Lemma stopped_session_is_persisted_witness :
  let st := set_current_scan_data (new_session t0) init_state in
  let out := handle_action "stop-scan" t0_later (st, []) in
  let fs' := snd (_save_scan_record sample_dumps (current_scan_data st) t0_later ∅) in
  snd (snd out) = [] ++ [current_scan_data st] /\
  scan_history (fst (snd out)) = scan_history st ++ [current_scan_data st] /\
  get_scan_record sample_loads (record_id t0_later) fs' = (inr (current_scan_data st), fs') /\
  (forall path, path <> record_filename t0_later ->
     fs' !! path = (∅ : gmap string (option pyval)) !! path).
Proof.
  intros st.
  apply (stopped_session_is_persisted sample_dumps sample_loads st [] t0_later t0_later ∅);
    reflexivity.
Defined.

(** The theorem for the body [{analysis: null}] saved at [t0]. *)
Lemma failed_save_is_retrievable_witness :
  let out := save_result sample_dumps sample_null_analysis t0 t0 (init_state, ∅) in
  fst out = inl (HTTPException 500 (StrOf (AttributeError "get"))) /\
  fst (snd out) = init_state /\
  get_scan_record sample_loads (record_id t0) (snd (snd out)) =
    (inr sample_null_analysis, snd (snd out)).
Proof.
  apply (failed_save_is_retrievable sample_dumps sample_loads
           [("analysis", PyNone)] PyNone t0 t0 init_state ∅);
    [reflexivity|discriminate|reflexivity].
Defined.

(** ** The history view under appends *)

(** X13: the history view is a sliding window: appending one entry to the
    history makes it the last entry of the view, after the previous view,
    which loses its oldest entry once 20 entries are already there; the
    count goes up by one. *)
Theorem history_view_slides (e : pyval) (st : AppState) :
  exists scans scans',
    get_scan_history st =
      (inr (PyDict [("count", PyInt (Z.of_nat (length (scan_history st))));
                    ("scans", PyList scans)]), st) /\
    get_scan_history (history_append e st) =
      (inr (PyDict [("count", PyInt (Z.of_nat (length (scan_history st)) + 1));
                    ("scans", PyList scans')]), history_append e st) /\
    scans' = (if length (scan_history st) <? 20 then scans else drop 1 scans) ++ [e] /\
    last scans' = Some e.
Proof.
  exists (py_slice_from (-20) (scan_history st)),
         (py_slice_from (-20) (scan_history st ++ [e])).
  split; [reflexivity|]. split.
  { unfold get_scan_history. run_handler. cbn [scan_history history_append].
    rewrite length_app. cbn [length]. do 6 f_equal. lia. }
  rewrite !py_slice_last_20, length_app. cbn [length].
  set (h := scan_history st).
  assert (Hview : drop (length h + 1 - 20) (h ++ [e]) =
                  (if length h <? 20 then drop (length h - 20) h
                   else drop 1 (drop (length h - 20) h)) ++ [e]).
  { destruct (Nat.ltb_spec (length h) 20) as [Hlt|Hge].
    - replace (length h + 1 - 20) with 0 by lia.
      replace (length h - 20) with 0 by lia. reflexivity.
    - rewrite drop_drop, drop_app_le by lia. do 2 f_equal. lia. }
  split; [exact Hview|]. rewrite Hview. apply last_snoc.
Qed.

(** ** The service as a whole, continued *)

Section ServiceMore.

Context {ndarray text : Type}.
Variable imdecode : list Byte.byte -> Exception + option ndarray.
Variable json_dumps : pyval -> text.
Variable json_loads : text -> option pyval.

Lemma world_eta (w : World (text:=text)) :
  {| app := app w; files := files w; pending := pending w |} = w.
Proof. destruct w; reflexivity. Qed.

Lemma get_scan_record_files scan_id (fs : gmap string text) :
  snd (get_scan_record json_loads scan_id fs) = fs.
Proof.
  unfold get_scan_record. run_handler.
  destruct (fs !! (RECORDS_DIR +:+ "/" +:+ scan_id +:+ ".json")) as [c|]; [|reflexivity].
  destruct (json_loads c); reflexivity.
Qed.

(** X14: the [GET] endpoints (status, latest frame, history, record, health)
    never change anything: application state, records directory and pending
    background tasks are the same after the call, also when the call fails
    with 404 or 500. *)
Theorem get_requests_change_nothing (req : Request) (w : World) :
  read_only_request req = true ->
  snd (serve imdecode json_dumps json_loads req w) = w.
Proof.
  destruct req; try discriminate; intros _; cbn [serve with_app fst snd].
  - apply world_eta.
  - rewrite get_latest_frame_state. apply world_eta.
  - apply world_eta.
  - rewrite get_scan_record_files. apply world_eta.
  - apply world_eta.
Qed.

Lemma serve_state_machine_fields req w :
  action_request req = false ->
  let w' := snd (serve imdecode json_dumps json_loads req w) in
  app_state (app w') = app_state (app w) /\
  ui_state_text (app w') = ui_state_text (app w) /\
  current_scan_data (app w') = current_scan_data (app w).
Proof.
  intros Hreq. cbv zeta.
  destruct req; try discriminate; cbn [serve with_app app fst snd];
    rewrite ?get_latest_frame_state, ?receive_frame_state; try (repeat split; fail).
  - destruct (save_result_state json_dumps result_data now1 now2 (app w) (files w))
      as [->|[e ->]]; repeat split.
  - destruct (pending w); repeat split.
Qed.

(** X15: only the action endpoint moves the state machine: frame uploads,
    saves, all reads and the background tasks leave the state name, its
    label and the current session exactly as they were. *)
Theorem only_actions_move_the_state (req : Request) (w : World) :
  action_request req = false ->
  let w' := snd (serve imdecode json_dumps json_loads req w) in
  app_state (app w') = app_state (app w) /\
  ui_state_text (app w') = ui_state_text (app w) /\
  current_scan_data (app w') = current_scan_data (app w).
Proof. apply serve_state_machine_fields. Qed.

Lemma serve_label req w :
  ui_state_text (app w) = "State: " +:+ app_state (app w) ->
  let w' := snd (serve imdecode json_dumps json_loads req w) in
  ui_state_text (app w') = "State: " +:+ app_state (app w').
Proof.
  intros Hui. cbv zeta. destruct (action_request req) eqn:Hreq.
  - destruct req; try discriminate. cbn [serve app fst snd].
    rewrite handle_action_state_any_queue.
    apply (ui_text_step (app w, []) (action, now)), Hui.
  - destruct (serve_state_machine_fields req w Hreq) as (Ha & Hu & _).
    rewrite Hu, Ha. exact Hui.
Qed.

Lemma run_server_label reqs w :
  ui_state_text (app w) = "State: " +:+ app_state (app w) ->
  ui_state_text (app (run_server imdecode json_dumps json_loads reqs w)) =
    "State: " +:+ app_state (app (run_server imdecode json_dumps json_loads reqs w)).
Proof.
  revert w. induction reqs as [|req reqs IH]; intros w Hui; [exact Hui|].
  cbn [run_server fold_left]. apply IH, serve_label, Hui.
Qed.

(** X16: after every sequence of requests since start-up, the status
    endpoint succeeds, reports one of the three state names together with
    the label ["State: <name>"], never a frame, and changes nothing. *)
Theorem status_reports_state_name (reqs : list Request) :
  let w := run_server imdecode json_dumps json_loads reqs init_world in
  exists name,
    serve imdecode json_dumps json_loads GetStatus w =
      (inr (PyDict [("app_state", PyStr name);
                    ("ui_state_text", PyStr ("State: " +:+ name));
                    ("active_profile_name", PyStr "Mobile Spectrometry");
                    ("latest_frame_jpeg", PyNone)]), w) /\
    (name = "IDLE" \/ name = "BLANKING_COUNTDOWN" \/ name = "SCANNING").
Proof.
  intros w. exists (app_state (app w)).
  assert (Hui : ui_state_text (app w) = "State: " +:+ app_state (app w))
    by (apply run_server_label; reflexivity).
  assert (Hinv : session_inv (app w))
    by (apply run_server_session_inv, session_inv_init).
  split.
  - cbn [serve with_app]. unfold get_status. run_handler.
    rewrite Hui. unfold with_app. cbn [fst snd]. rewrite world_eta. reflexivity.
  - destruct Hinv as [Ha _|? Ha _|? Ha _|Ha _]; auto.
Qed.

Lemma run_server_cons req reqs (w : World) :
  run_server imdecode json_dumps json_loads (req :: reqs) w =
    run_server imdecode json_dumps json_loads reqs
      (snd (serve imdecode json_dumps json_loads req w)).
Proof. reflexivity. Qed.

(** X17: the history is append-only over the whole service: whatever
    requests are served, the history afterwards is the history before
    followed by new entries, at most one per request; so the counts reported
    by the history and health endpoints never decrease. *)
Theorem history_is_append_only (reqs : list Request) (w : World) :
  let w' := run_server imdecode json_dumps json_loads reqs w in
  exists added,
    scan_history (app w') = scan_history (app w) ++ added /\
    length added <= length reqs /\
    fst (health_check (app w')) =
      inr (PyDict [("status", PyStr "ok");
                   ("version", PyStr "2.0");
                   ("mode", PyStr "phone-first (calculations on device)");
                   ("scan_count",
                    PyInt (Z.of_nat (length (scan_history (app w))) +
                           Z.of_nat (length added)))]).
Proof.
  cbv zeta.
  assert (H : exists added,
             scan_history (app (run_server imdecode json_dumps json_loads reqs w)) =
               scan_history (app w) ++ added /\ length added <= length reqs).
  { revert w. induction reqs as [|req reqs IH]; intros w.
    - exists []. rewrite app_nil_r. split; [reflexivity|cbn; lia].
    - rewrite run_server_cons.
      destruct (serve_history_append_only imdecode json_dumps json_loads req w)
        as (a1 & H1 & L1).
      destruct (IH (snd (serve imdecode json_dumps json_loads req w))) as (a2 & H2 & L2).
      exists (a1 ++ a2). rewrite H2, H1, <- app_assoc, length_app.
      split; [reflexivity|cbn [length]; lia]. }
  destruct H as (added & Hh & Hl). exists added.
  split; [exact Hh|]. split; [exact Hl|].
  unfold health_check. run_handler. rewrite Hh, length_app, Nat2Z.inj_add. reflexivity.
Qed.

Lemma save_result_files result_data now1 now2 st (fs : gmap string text) :
  snd (snd (save_result json_dumps result_data now1 now2 (st, fs))) =
    <[record_filename now1 := json_dumps result_data]> fs.
Proof.
  destruct result_data as [| | | | | | |entries]; try reflexivity.
  destruct (default (PyDict []) (assoc_get "analysis" entries)) as [| | | | | | |analysis] eqn:Ha;
    try (rewrite (save_result_fail json_dumps _ _ _ _ _ _ Ha) by discriminate; reflexivity).
  rewrite (save_result_ok json_dumps _ _ _ _ _ _ Ha). reflexivity.
Qed.

Lemma serve_files_kept req w path :
  is_Some (files w !! path) ->
  is_Some (files (snd (serve imdecode json_dumps json_loads req w)) !! path).
Proof.
  intros Hp. destruct req; cbn [serve with_app files fst snd];
    rewrite ?get_scan_record_files; try exact Hp.
  - rewrite save_result_files. apply lookup_insert_is_Some'. right. exact Hp.
  - destruct (pending w) as [|scan_data rest]; [exact Hp|]. cbn [files snd].
    rewrite save_scan_record_files. cbn [snd].
    apply lookup_insert_is_Some'. right. exact Hp.
Qed.

(** X18: records are never deleted: a record file present at some point is
    still present after any further sequence of requests and background
    tasks. *)
Theorem records_are_never_deleted (reqs : list Request) (w : World) (path : string) :
  is_Some (files w !! path) ->
  is_Some (files (run_server imdecode json_dumps json_loads reqs w) !! path).
Proof.
  revert w. induction reqs as [|req reqs IH]; intros w Hp; [exact Hp|].
  rewrite run_server_cons. apply IH, serve_files_kept, Hp.
Qed.

End ServiceMore.

(** The theorem for a read of a missing record on the initial service. *)
Lemma get_requests_change_nothing_witness :
  snd (serve sample_imdecode sample_dumps sample_loads (GetRecord "scan_x") init_world) =
    init_world.
Proof.
  apply (get_requests_change_nothing sample_imdecode sample_dumps sample_loads
           (GetRecord "scan_x") init_world).
  reflexivity.
Defined.

(** The theorem for a rejected frame upload on the initial service. *)
Lemma only_actions_move_the_state_witness :
  let w' := snd (serve sample_imdecode sample_dumps sample_loads
                   (PostFrame [Byte.x6e; Byte.x6f]) init_world) in
  app_state (app w') = app_state (app (init_world (text:=option pyval))) /\
  ui_state_text (app w') = ui_state_text (app (init_world (text:=option pyval))) /\
  current_scan_data (app w') = current_scan_data (app (init_world (text:=option pyval))).
Proof.
  apply (only_actions_move_the_state sample_imdecode sample_dumps sample_loads
           (PostFrame [Byte.x6e; Byte.x6f]) init_world).
  reflexivity.
Defined.

(** The theorem for the sample result saved at [t0], followed by a session
    that is started and stopped and whose snapshot is written at [t1]. *)
Lemma records_are_never_deleted_witness :
  is_Some
    (files
       (run_server sample_imdecode sample_dumps sample_loads
          [PostAction "start-scan" t1; PostAction "stop-scan" t1; RunBackgroundTask t1]
          (snd (serve sample_imdecode sample_dumps sample_loads
                  (PostSaveResult sample_result t0 t0) init_world)))
     !! record_filename t0).
Proof.
  apply (records_are_never_deleted sample_imdecode sample_dumps sample_loads).
  cbn [serve files snd]. rewrite save_result_files. rewrite lookup_insert_eq. eexists.
  reflexivity.
Defined.

(** ** Records written in other seconds *)

Lemma record_filename_inj a b :
  valid_datetime a -> valid_datetime b ->
  record_filename a = record_filename b -> same_second a b.
Proof.
  intros Ha Hb H. unfold record_filename in H.
  apply string_app_split in H as [_ H]; [|reflexivity].
  apply string_app_split in H as [_ H]; [|reflexivity].
  apply string_app_split in H as [H _]; [|rewrite !stamp_length by assumption; reflexivity].
  apply (stamp_inj a b Ha Hb H).
Qed.

Section RecordSurvival.

Context {ndarray text : Type}.
Variable imdecode : list Byte.byte -> Exception + option ndarray.
Variable json_dumps : pyval -> text.
Variable json_loads : text -> option pyval.

Lemma serve_files_other req (w : World (text:=text)) path :
  (forall t', writes_at req = Some t' -> path <> record_filename t') ->
  files (snd (serve imdecode json_dumps json_loads req w)) !! path = files w !! path.
Proof.
  intros Hw. destruct req; cbn [serve with_app files fst snd]; try reflexivity.
  - rewrite save_result_files. apply lookup_insert_ne.
    intros H. apply (Hw now1 eq_refl). symmetry. exact H.
  - rewrite get_scan_record_files. reflexivity.
  - destruct (pending w) as [|scan_data rest]; [reflexivity|]. cbn [files snd].
    rewrite save_scan_record_files. cbn [snd]. apply lookup_insert_ne.
    intros H. apply (Hw now eq_refl). symmetry. exact H.
Qed.

(** X19: a record is only ever replaced by a write in its own second: over
    any sequence of requests and background tasks whose writes all carry
    clock readings (in range) outside the second of [t], the file of the
    record written at [t] is exactly what it was, so a record saved at [t]
    is still retrieved unchanged afterwards. *)
Theorem record_survives_other_seconds (reqs : list Request) (w : World) (t : datetime) :
  valid_datetime t ->
  Forall (fun req => forall t', writes_at req = Some t' ->
                       valid_datetime t' /\ ~ same_second t t') reqs ->
  let w' := run_server imdecode json_dumps json_loads reqs w in
  files w' !! record_filename t = files w !! record_filename t /\
  get_scan_record json_loads (record_id t) (files w') =
    (fst (get_scan_record json_loads (record_id t) (files w)), files w').
Proof.
  intros Ht Hreqs. cbv zeta.
  assert (Hfile : files (run_server imdecode json_dumps json_loads reqs w)
                    !! record_filename t = files w !! record_filename t).
  { revert w. induction Hreqs as [|req reqs Hreq _ IH]; intros w; [reflexivity|].
    change (run_server imdecode json_dumps json_loads (req :: reqs) w) with
      (run_server imdecode json_dumps json_loads reqs
         (snd (serve imdecode json_dumps json_loads req w))).
    rewrite IH. apply serve_files_other. intros t' Ht' Heq.
    destruct (Hreq t' Ht') as [Hv Hne]. apply Hne.
    apply record_filename_inj; assumption. }
  split; [exact Hfile|].
  unfold get_scan_record. run_handler. rewrite <- record_filename_of_id, Hfile.
  destruct (files w !! record_filename t) as [c|]; [|reflexivity].
  destruct (json_loads c); reflexivity.
Qed.

End RecordSurvival.

(** The theorem for the sample result saved at [t0], then a status read, a
    second save at [t1] and a background task at [t1]. *)
Lemma record_survives_other_seconds_witness :
  let w := snd (serve sample_imdecode sample_dumps sample_loads
                  (PostSaveResult sample_result t0 t0) init_world) in
  let w' := run_server sample_imdecode sample_dumps sample_loads
              [GetStatus; PostSaveResult sample_null_analysis t1 t1; RunBackgroundTask t1]
              w in
  files w' !! record_filename t0 = files w !! record_filename t0 /\
  get_scan_record sample_loads (record_id t0) (files w') =
    (fst (get_scan_record sample_loads (record_id t0) (files w)), files w').
Proof.
  intros w.
  apply (record_survives_other_seconds sample_imdecode sample_dumps sample_loads
           [GetStatus; PostSaveResult sample_null_analysis t1 t1; RunBackgroundTask t1]
           w t0).
  - unfold valid_datetime; cbn; repeat split; lia.
  - assert (Hother : valid_datetime t1 /\ ~ same_second t0 t1).
    { split; [unfold valid_datetime; cbn; repeat split; lia|].
      intros (_ & _ & _ & _ & _ & Hs). discriminate Hs. }
    constructor; [intros t' H; discriminate H|].
    constructor; [intros t' [= <-]; exact Hother|].
    constructor; [intros t' [= <-]; exact Hother|].
    constructor.
Defined.

(** ** What the history and the persistence queue contain *)

Lemma action_step_sessions s a :
  session_inv (fst s) ->
  exists added,
    scan_history (fst (action_step s a)) = scan_history (fst s) ++ added /\
    snd (action_step s a) = snd s ++ added /\
    Forall (fun v => exists t, v = new_session t) added.
Proof.
  destruct s as [st q], a as [action t]. cbn [fst snd]. intros Hinv.
  destruct (String.eqb_spec action "start-scan") as [->|N1].
  { exists []. rewrite action_step_start, !app_nil_r. repeat split. constructor. }
  destruct (String.eqb_spec action "proceed-to-scan") as [->|N2].
  { exists []. rewrite action_step_proceed, !app_nil_r. repeat split. constructor. }
  destruct (String.eqb_spec action "stop-scan") as [->|N3].
  { rewrite action_step_stop.
    destruct Hinv as [_ Hs|t1 _ Hs|t1 _ Hs|_ Hs]; rewrite Hs; cbn [truthy new_session].
    - exists []. rewrite !app_nil_r. repeat split. constructor.
    - exists [new_session t1]. repeat split. constructor; [eauto|constructor].
    - exists [new_session t1]. repeat split. constructor; [eauto|constructor].
    - exists []. rewrite !app_nil_r. repeat split. constructor. }
  exists []. rewrite action_step_unknown, !app_nil_r by assumption.
  repeat split. constructor.
Qed.

Section HistoryContents.

Context {ndarray text : Type}.
Variable imdecode : list Byte.byte -> Exception + option ndarray.
Variable json_dumps : pyval -> text.
Variable json_loads : text -> option pyval.

Lemma save_result_appends result_data now1 now2 st (fs : gmap string text) :
  fst (snd (save_result json_dumps result_data now1 now2 (st, fs))) = st \/
  exists summary,
    history_entry summary /\
    fst (snd (save_result json_dumps result_data now1 now2 (st, fs))) =
      history_append summary st.
Proof.
  destruct result_data as [| | | | | |items|entries]; try (left; reflexivity).
  destruct (default (PyDict []) (assoc_get "analysis" entries)) as [| | | | | | |analysis] eqn:Ha;
    try (left; rewrite (save_result_fail json_dumps _ _ _ _ _ _ Ha) by discriminate;
         reflexivity).
  right. eexists. rewrite (save_result_ok json_dumps _ _ _ _ _ _ Ha). cbn [fst snd].
  split; [apply entry_summary|reflexivity].
Qed.

Lemma serve_contents_inv req w :
  contents_inv w -> contents_inv (snd (serve imdecode json_dumps json_loads req w)).
Proof.
  intros (Hs & Hh & Hp). split; [apply serve_session_inv, Hs|].
  destruct req; cbn [serve with_app app pending fst snd];
    rewrite ?get_latest_frame_state, ?receive_frame_state; try (split; assumption).
  - rewrite handle_action_state_any_queue.
    destruct (action_step_sessions (app w, []) (action, now) Hs) as (added & H1 & H2 & H3).
    cbn [fst snd] in H1, H2. rewrite H1. split.
    + apply Forall_app; split; [exact Hh|].
      eapply Forall_impl; [exact H3|]. intros v [t ->]. apply entry_session.
    + apply Forall_app; split; [exact Hp|].
      assert (Hq : snd (snd (handle_action action now (app w, []))) = [] ++ added)
        by exact H2.
      rewrite Hq. exact H3.
  - split; [|exact Hp].
    destruct (save_result_appends result_data now1 now2 (app w) (files w))
      as [->|(e & He & ->)]; [exact Hh|].
    cbn [scan_history history_append]. apply Forall_app; split; [exact Hh|].
    constructor; [exact He|constructor].
  - destruct (pending w) as [|scan_data rest] eqn:E; cbn [app pending snd].
    + rewrite E. split; assumption.
    + split; [exact Hh|]. inversion Hp; assumption.
Qed.

(** X20: every entry of the history, and every snapshot queued for
    persistence, has one of two fixed shapes, whatever requests were served
    since start-up: a client-save summary with the keys [timestamp],
    [filename], [v0], [r_squared], or a session dictionary whose [frames]
    list is empty and whose [analysis] is [None]; frames uploaded during a
    session never reach its record. *)
Theorem recorded_sessions_have_no_frames (reqs : list Request) :
  let w := run_server imdecode json_dumps json_loads reqs init_world in
  Forall history_entry (scan_history (app w)) /\
  Forall (fun v => exists t,
            v = PyDict [("timestamp", PyStr (isoformat t));
                        ("frames", PyList []);
                        ("analysis", PyNone)]) (pending w).
Proof.
  cbv zeta.
  assert (H : contents_inv (run_server imdecode json_dumps json_loads reqs init_world)).
  { assert (H0 : contents_inv (init_world (text:=text))).
    { split; [apply session_inv_init|]. split; apply Forall_nil_2. }
    revert H0. generalize (init_world (text:=text)).
    induction reqs as [|req reqs IH]; intros w Hw; [exact Hw|].
    change (run_server imdecode json_dumps json_loads (req :: reqs) w) with
      (run_server imdecode json_dumps json_loads reqs
         (snd (serve imdecode json_dumps json_loads req w))).
    apply IH, serve_contents_inv, Hw. }
  destruct H as (_ & Hh & Hp). split; [exact Hh|exact Hp].
Qed.

End HistoryContents.
